(** * FSRPWL mock assistant: a shallow embedding of [Home/main.py]

    The script mocks a generative-AI client for a roleplay community.  It has
    one responder, [MockClient.generate_content], which prints three trace
    lines and returns one of two canned dictionaries, and two services built
    on it, [generate_chat_response] and [generate_rp_scenario].

    Modelling choices, all of them read off the source:
    - a Python [str] is a [string]; one character of the model stands for one
      character of the Python string (every literal of the script is ASCII);
    - a Python [dict] with string keys is a [gmap string _];
    - [Optional[List[MockTool]]] is [option (list MockTool)];
    - standard output is the only state the script touches: a computation is
      a function from the text printed so far to an outcome and the text
      printed afterwards;
    - a Python exception is an outcome [Raise e]: subscripts and dictionary
      lookups are written as the fallible operations they are;
    - every dictionary and list the script returns is built by a literal
      when the call runs, so for what a call returns and prints values are
      enough;
    - what survives a call is the subject of a second embedding, [Obj], over
      a store of objects: there a variable holds a reference, a display
      allocates, and an attribute assignment overwrites in place. *)

From Stdlib Require Import String Ascii.
From stdpp Require Import base option list strings gmap.

Local Open Scope string_scope.

(** ** Python primitives used by the script *)

Module Py.

Inductive exn : Type :=
| IndexError
| KeyError
| TypeError.

Inductive result (A : Type) : Type :=
| Ok (a : A)
| Raise (e : exn).
Arguments Ok {A} a.
Arguments Raise {A} e.

(** Text written to standard output so far. *)
Definition stdout : Type := string.

(** A computation: it may print, and it returns or raises. *)
Definition M (A : Type) : Type := stdout -> result A * stdout.

Definition ret {A} (a : A) : M A := fun out => (Ok a, out).

Definition bind {A B} (m : M A) (k : A -> M B) : M B :=
  fun out =>
    match m out with
    | (Ok a, out') => k a out'
    | (Raise e, out') => (Raise e, out')
    end.

Definition lift {A} (r : result A) : M A := fun out => (r, out).

(** The line feed, Python's backslash-n. *)
Definition nl : string := String (ascii_of_nat 10) EmptyString.

(** [print(s)]: the text, then a line feed. *)
Definition print (s : string) : M unit :=
  fun out => (Ok tt, out ++ s ++ nl).

(** [s[:n]] on a string: the first [n] characters, or all of [s] when it is
    shorter.  A slice never raises. *)
Definition slice_to (n : nat) (s : string) : string := String.substring 0 n s.

(** Truth value of an [Optional[List[_]]]: [None] and [[]] are false. *)
Definition truthy {A} (o : option (list A)) : bool :=
  match o with
  | None => false
  | Some [] => false
  | Some (_ :: _) => true
  end.

(** [o[i]] for an [Optional[List[_]]]: subscripting [None] is a
    [TypeError], an index past the end an [IndexError]. *)
Definition getitem {A} (o : option (list A)) (i : nat) : result A :=
  match o with
  | None => Raise TypeError
  | Some l =>
      match l !! i with
      | Some x => Ok x
      | None => Raise IndexError
      end
  end.

(** [d[k]] on a dictionary: a missing key is a [KeyError]. *)
Definition dict_getitem {V} (d : gmap string V) (k : string) : result V :=
  match d !! k with
  | Some v => Ok v
  | None => Raise KeyError
  end.

(** [d.get(k, dflt)]. *)
Definition dict_get {V} (d : gmap string V) (k : string) (dflt : V) : V :=
  default dflt (d !! k).

End Py.

Import Py.

#[global] Instance M_ret : MRet M := @Py.ret.
#[global] Instance M_bind : MBind M := fun A B k m => Py.bind m k.

(** ** Data *)

(** [class MockTool]. *)
Record MockTool : Type := MockTool_init { name : string }.

(** [class MockConfig]; [tools] defaults to [None]. *)
Record MockConfig : Type := MockConfig_init {
  system_instruction : string;
  tools : option (list MockTool)
}.

(** A citation: the dictionary with keys [title] and [uri]. *)
Abbreviation source := (gmap string string).

(** The values the response dictionaries hold: a text or a list of
    citations. *)
Inductive pyval : Type :=
| PyStr (s : string)
| PyList (l : list source).

(** A response: the dictionary with keys [text] and [sources]. *)
Abbreviation payload := (gmap string pyval).

(** [class MockClient]: an object without attributes. *)
Inductive MockClient : Type := MockClient_obj.

(** [MockClient.__init__]: the key is ignored. *)
Definition MockClient_init (api_key : option string) : M MockClient :=
  print "--- Initializing Mock Gemini Client ---";;
  mret MockClient_obj.

(** ** The two canned responses *)

Definition grounded_text : string :=
  "FSRPWL (Florida State Roleplay Whitelisted) is a highly structured "
  ++ "roleplay community focused on the **Emergency Response: Liberty County** game on Roblox. "
  ++ "We emphasize maturity, realism, and adherence to realistic procedures. "
  ++ "Here is a table of our core departments:" ++ nl ++ nl
  ++ "| Department | Primary Focus |" ++ nl
  ++ "|---|---|" ++ nl
  ++ "| FHP | Interstate enforcement & traffic |" ++ nl
  ++ "| Sheriff's Office | Patrol, investigations, community policing |" ++ nl
  ++ "| Fire & Rescue | Medical, fire suppression, technical rescue |" ++ nl
  ++ "| Communications | Call taking & unit coordination |" ++ nl ++ nl
  ++ "If you'd like to dive deeper into any department, just ask!".

Definition source_guidelines : source :=
  {[ "title" := "FSRPWL Community Guidelines";
     "uri" := "https://example.com/fsrpwl-rules" ]}.

Definition source_wiki : source :=
  {[ "title" := "Roblox ER:LC Wiki";
     "uri" := "https://example.com/erlc-wiki" ]}.

Definition grounded_sources : list source := [source_guidelines; source_wiki].

Definition grounded_payload : payload :=
  {[ "text" := PyStr grounded_text;
     "sources" := PyList grounded_sources ]}.

Definition creative_text : string :=
  "**Scenario: Armed Robbery in Progress.** You are a Sheriff's Office deputy responding to a 211 (Armed Robbery) at the County Bank branch. "
  ++ "Dispatch reports two suspects inside with handguns. Multiple 911 calls confirm that hostages have been taken. "
  ++ "Your primary directive is to establish a secure perimeter, contain the suspects, and coordinate with specialized units (SWAT) as they arrive on scene. **Do not engage alone.** Your decisions on prioritizing life safety vs. containment are crucial.".

Definition creative_payload : payload :=
  {[ "text" := PyStr creative_text;
     "sources" := PyList [] ]}.

(** ** [MockClient.generate_content] *)

(** The test of line 48,
    [config.tools and config.tools[0].name == "google_search"].
    [and] evaluates its right operand only when the left one is true. *)
Definition branch_condition (config : MockConfig) : result bool :=
  if truthy (tools config) then
    match getitem (tools config) 0 with
    | Ok t => Ok (bool_decide (name t = "google_search"))
    | Raise e => Raise e
    end
  else Ok false.

Definition generate_content (self : MockClient) (model contents : string)
    (config : MockConfig) : M payload :=
  print (nl ++ "[MOCK API CALL] Model: " ++ model);;
  print ("[MOCK API CALL] Query: '" ++ contents ++ "'");;
  print ("[MOCK API CALL] System Instruction: '"
         ++ slice_to 50 (system_instruction config) ++ "...'");;
  c ← lift (branch_condition config);
  if (c : bool) then mret grounded_payload else mret creative_payload.

(** ** The services *)

(** The module-level client, as it is once the module is loaded. *)
Definition gemini_client : MockClient := MockClient_obj.

Definition chat_system_prompt : string :=
  "You are Flordiee AI, a helpful and professional assistant for the FSRPWL "
  ++ "community. You are friendly and knowledgeable. You MUST use factual, "
  ++ "search-grounded information when possible.".

Definition generate_chat_response (user_query : string) : M payload :=
  let system_prompt := chat_system_prompt in
  let config :=
    MockConfig_init system_prompt (Some [MockTool_init "google_search"]) in
  api_response ← generate_content gemini_client "gemini-2.5-flash" user_query config;
  text ← lift (dict_getitem api_response "text");
  mret ({[ "text" := text;
           "sources" := dict_get api_response "sources" (PyList []) ]} : payload).

Definition scenario_system_prompt : string :=
  "You are a creative director for a realistic, mature, whitelist-only roleplay "
  ++ "community. Your job is to generate engaging, serious, and realistic scenario prompts "
  ++ "for players, suitable for a mature audience.".

Definition generate_rp_scenario (department : string) : M pyval :=
  let system_prompt := scenario_system_prompt in
  let query :=
    "Generate a short, realistic roleplay scenario (around 100 words) for the '"
    ++ department ++ "' department." in
  let config := MockConfig_init system_prompt None in
  api_response ← generate_content gemini_client "gemini-2.5-flash" query config;
  lift (dict_getitem api_response "text").


(** ** Vocabulary of the specification *)

(** Some tool of the configuration, at any position, has the given name. *)
Definition has_tool (n : string) (config : MockConfig) : Prop :=
  ∃ ts t, tools config = Some ts ∧ t ∈ ts ∧ name t = n.

(** The tool list is non-empty and its first tool has the given name. *)
Definition first_tool_named (n : string) (config : MockConfig) : Prop :=
  ∃ t rest, tools config = Some (t :: rest) ∧ name t = n.

Definition contains_substring (sub s : string) : Prop :=
  ∃ pre post, s = pre ++ sub ++ post.

Definition starts_with (p s : string) : Prop :=
  ∃ rest, s = p ++ rest.

(** The text and the citations of a response, when it has them. *)
Definition text_of (p : payload) : option string :=
  match p !! "text" with
  | Some (PyStr s) => Some s
  | _ => None
  end.

Definition sources_of (p : payload) : option (list source) :=
  match p !! "sources" with
  | Some (PyList l) => Some l
  | _ => None
  end.

(** What the specification says of the grounded response. *)
Definition grounded_described (p : payload) : Prop :=
  p = grounded_payload ∧
  (∃ s, text_of p = Some s ∧ contains_substring "FHP" s) ∧
  sources_of p =
    Some [ ({[ "title" := "FSRPWL Community Guidelines";
               "uri" := "https://example.com/fsrpwl-rules" ]} : source);
           ({[ "title" := "Roblox ER:LC Wiki";
               "uri" := "https://example.com/erlc-wiki" ]} : source) ].

(** What the specification says of the creative response. *)
Definition creative_described (p : payload) : Prop :=
  p = creative_payload ∧
  (∃ s, text_of p = Some s ∧ contains_substring "Armed Robbery" s) ∧
  sources_of p = Some [].

(** A citation with a non-empty title and a non-empty address. *)
Definition well_formed_source (s : source) : Prop :=
  ∃ t u, s !! "title" = Some t ∧ t ≠ EmptyString ∧
         s !! "uri" = Some u ∧ u ≠ EmptyString.

(** The three lines one call of the responder prints. *)
Definition call_trace (model contents : string) (config : MockConfig)
    (out : stdout) : stdout :=
  ((out ++ (nl ++ "[MOCK API CALL] Model: " ++ model) ++ nl)
     ++ ("[MOCK API CALL] Query: '" ++ contents ++ "'") ++ nl)
    ++ ("[MOCK API CALL] System Instruction: '"
        ++ slice_to 50 (system_instruction config) ++ "...'") ++ nl.

(** The branch taken, as a function of the tool list alone. *)
Definition first_is_search (config : MockConfig) : bool :=
  match tools config with
  | Some (t :: _) => bool_decide (name t = "google_search")
  | _ => false
  end.

(** The prompt [generate_rp_scenario] builds and the two configurations. *)
Definition scenario_query (department : string) : string :=
  "Generate a short, realistic roleplay scenario (around 100 words) for the '"
  ++ department ++ "' department.".

Definition chat_config : MockConfig :=
  MockConfig_init chat_system_prompt (Some [MockTool_init "google_search"]).

Definition scenario_config : MockConfig :=
  MockConfig_init scenario_system_prompt None.

(** The reading of the specification in which a search flag at any position
    selects the grounded response. *)
Definition any_position_reading (self : MockClient) (model contents : string)
    (config : MockConfig) (out : stdout) : Prop :=
  let outcome := (generate_content self model contents config out).1 in
  (has_tool "google_search" config →
     ∃ p, outcome = Ok p ∧ grounded_described p) ∧
  (¬ has_tool "google_search" config →
     ∃ p, outcome = Ok p ∧ creative_described p).

(** A configuration whose second tool, not its first, is the search flag. *)
Definition search_second_config : MockConfig :=
  MockConfig_init "You are a helpful assistant."
    (Some [MockTool_init "code_execution"; MockTool_init "google_search"]).

(** ** The rest of the script: the repackaging and the demonstration *)

(** Lines 111-114, the dictionary [generate_chat_response] builds from the
    response it was given: [api_response["text"]] must be there,
    [api_response.get("sources", [])] falls back to the empty list. *)
Definition chat_result (api_response : payload) : result payload :=
  match dict_getitem api_response "text" with
  | Ok text =>
      Ok ({[ "text" := text;
             "sources" := dict_get api_response "sources" (PyList []) ]} : payload)
  | Raise e => Raise e
  end.

(** [s * n] on a string. *)
Fixpoint str_repeat (s : string) (n : nat) : string :=
  match n with
  | 0 => EmptyString
  | S n' => s ++ str_repeat s n'
  end.

(** A [for] loop whose body may print or raise: the first exception ends it. *)
Fixpoint for_each {A} (body : A -> M unit) (l : list A) : M unit :=
  match l with
  | [] => mret tt
  | x :: l' => body x;; for_each body l'
  end.

(** Truth value of a response value: the empty text and the empty list are
    false. *)
Definition pyval_truthy (v : pyval) : bool :=
  match v with
  | PyStr EmptyString => false
  | PyStr (String _ _) => true
  | PyList [] => false
  | PyList (_ :: _) => true
  end.

(** Line 156, [print(f"- {source['title']}: {source['uri']}")]: the title is
    looked up first, then the address. *)
Definition print_source (source : gmap string string) : M unit :=
  title ← lift (dict_getitem source "title");
  uri ← lift (dict_getitem source "uri");
  print ("- " ++ title ++ ": " ++ uri).

(** Lines 155-156, the loop over [chat_response['sources']].  Over a list it
    visits the citations in order.  Over a text it visits one-character
    strings, and subscripting a string with ['title'] is a [TypeError]. *)
Definition for_sources (sources : pyval) : M unit :=
  match sources with
  | PyList l => for_each print_source l
  | PyStr EmptyString => mret tt
  | PyStr (String _ _) => lift (Raise TypeError)
  end.

(** Lines 153-156 of the demonstration: the sources, when there are any. *)
Definition print_sources (chat_response : payload) : M unit :=
  sources ← lift (dict_getitem chat_response "sources");
  if pyval_truthy sources then
    print (nl ++ "Sources Used:");;
    sources' ← lift (dict_getitem chat_response "sources");
    for_sources sources'
  else mret tt.

Section Script.

(** The text [print] writes for a list of dictionaries.  Its format is not
    modelled: the script is stated for any. *)
Context (str_of_list : list source -> string).

(** [print(v)] for a response value. *)
Definition print_value (v : pyval) : M unit :=
  match v with
  | PyStr s => print s
  | PyList l => print (str_of_list l)
  end.

(** Lines 143-169, the body of the [__main__] block. *)
Definition main : M unit :=
  print "--- FSRPWL AI Tool Demonstration ---";;
  let chat_query := "What are the core departments in FSRPWL?" in
  print (nl ++ "[DEMO 1] Chatbot Query: " ++ chat_query);;
  chat_response ← generate_chat_response chat_query;
  print (nl ++ "--- AI Chat Response (Grounded) ---");;
  text ← lift (dict_getitem chat_response "text");
  print_value text;;
  print_sources chat_response;;
  print (nl ++ str_repeat "=" 50 ++ nl);;
  let department_choice := "Sheriff's Office" in
  print ("[DEMO 2] Scenario Request for: " ++ department_choice);;
  scenario ← generate_rp_scenario department_choice;
  print (nl ++ "--- AI Scenario Response (Creative) ---");;
  print_value scenario;;
  print (nl ++ "--- Demonstration Complete ---").

(** The whole file, top to bottom: the client is built from the environment
    when the module is loaded (line 84), and the demonstration runs only when
    the file is the program being run (line 142). *)
Definition script (environ : gmap string string) (is_main : bool) : M unit :=
  MockClient_init (environ !! "GEMINI_API_KEY");;
  if is_main then main else mret tt.

End Script.

(** ** Vocabulary for the rest of the script *)

(** A citation that has both keys the listing reads. *)
Definition printable_source (s : source) : Prop :=
  is_Some (s !! "title") ∧ is_Some (s !! "uri").

(** The lines the listing prints for a list of citations, one per citation. *)
Definition listing (l : list source) : string :=
  foldr (fun s acc =>
           "- " ++ default EmptyString (s !! "title") ++ ": "
           ++ default EmptyString (s !! "uri") ++ nl ++ acc)
        EmptyString l.

(** A computation that only adds to standard output: its outcome does not
    depend on what was printed before, and what it prints comes after it. *)
Definition appending {A} (m : M A) : Prop :=
  ∀ out, m out = ((m EmptyString).1, out ++ (m EmptyString).2).

(** ** The script over a store of objects

    The definitions above treat a dictionary as a value.  To speak about
    state that survives a call (the module's variable [gemini_client], the
    attributes of the object it names, the dictionaries and lists a call
    hands out) the script is embedded a second time, over a store: a variable
    holds a reference, an instance is created empty and filled by
    [__init__], a dictionary or list display allocates a new object each
    time it is evaluated, and an attribute assignment overwrites an object in
    place.  Strings and [None] are immutable and stay values. *)

Module Obj.

Definition loc : Type := positive.

Inductive val : Type :=
| VNone
| VStr (s : string)
| VRef (l : loc).

Inductive class : Type :=
| CMockTool
| CMockConfig
| CMockClient.

Inductive obj : Type :=
| ODict (d : gmap string val)
| OList (items : list val)
| OInst (c : class) (attrs : gmap string val).

(** [OutOfModel] is no Python exception.  It marks the two places where this
    embedding has no answer: a reference to no object, which Python cannot
    produce, and the slice of a list or dictionary inside an f-string, whose
    text would need Python's rendering of containers. *)
Inductive exn : Type :=
| NameError
| AttributeError
| TypeError
| KeyError
| IndexError
| OutOfModel.

Inductive result (A : Type) : Type :=
| Ok (a : A)
| Raise (e : exn).
Arguments Ok {A} a.
Arguments Raise {A} e.

(** Standard output, the store, and the module's variables. *)
Record world : Type := World {
  out : stdout;
  heap : gmap loc obj;
  globals : gmap string val
}.

Definition H (A : Type) : Type := world -> result A * world.

Definition ret {A} (a : A) : H A := fun w => (Ok a, w).

Definition bind {A B} (m : H A) (k : A -> H B) : H B :=
  fun w =>
    match m w with
    | (Ok a, w') => k a w'
    | (Raise e, w') => (Raise e, w')
    end.

Definition raise {A} (e : exn) : H A := fun w => (Raise e, w).

#[local] Instance H_ret : MRet H := @ret.
#[local] Instance H_bind : MBind H := fun A B k m => bind m k.

(** An operation that reads the store and changes nothing. *)
Definition inspect {A} (f : gmap loc obj -> result A) : H A :=
  fun w => (f (heap w), w).

Definition print (s : string) : H unit :=
  fun w => (Ok tt, World (out w ++ s ++ nl) (heap w) (globals w)).

(** A new object: it gets a reference that names no object yet. *)
Definition alloc (o : obj) : H val :=
  fun w =>
    let l := fresh (dom (heap w)) in
    (Ok (VRef l), World (out w) (<[l := o]> (heap w)) (globals w)).

(** Reading a module variable; an unbound name is a [NameError]. *)
Definition load_global (x : string) : H val :=
  fun w =>
    match globals w !! x with
    | Some v => (Ok v, w)
    | None => (Raise NameError, w)
    end.

Definition store_global (x : string) (v : val) : H unit :=
  fun w => (Ok tt, World (out w) (heap w) (<[x := v]> (globals w))).

(** [v.a] for the attributes the script reads ([system_instruction],
    [tools], [name]): only an instance can have them. *)
Definition getattr (v : val) (a : string) (h : gmap loc obj) : result val :=
  match v with
  | VRef l =>
      match h !! l with
      | Some (OInst _ attrs) =>
          match attrs !! a with
          | Some x => Ok x
          | None => Raise AttributeError
          end
      | Some (ODict _) | Some (OList _) => Raise AttributeError
      | None => Raise OutOfModel
      end
  | VNone | VStr _ => Raise AttributeError
  end.

(** [v.a = x]: the instance is overwritten in place. *)
Definition setattr (v : val) (a : string) (x : val) : H unit :=
  fun w =>
    match v with
    | VRef l =>
        match heap w !! l with
        | Some (OInst c attrs) =>
            (Ok tt,
             World (out w) (<[l := OInst c (<[a := x]> attrs)]> (heap w))
               (globals w))
        | Some (ODict _) | Some (OList _) => (Raise AttributeError, w)
        | None => (Raise OutOfModel, w)
        end
    | VNone | VStr _ => (Raise AttributeError, w)
    end.

(** The text of [v[:50]] inside an f-string. *)
Definition slice50_text (v : val) (h : gmap loc obj) : result string :=
  match v with
  | VStr s => Ok (slice_to 50 s)
  | VNone => Raise TypeError
  | VRef l =>
      match h !! l with
      | Some (OInst _ _) => Raise TypeError
      | Some (ODict _) | Some (OList _) | None => Raise OutOfModel
      end
  end.

(** Truth value: [None], the empty string, the empty list and the empty
    dictionary are false; an instance of the script's classes is true. *)
Definition truth (v : val) (h : gmap loc obj) : result bool :=
  match v with
  | VNone => Ok false
  | VStr EmptyString => Ok false
  | VStr (String _ _) => Ok true
  | VRef l =>
      match h !! l with
      | Some (OList []) => Ok false
      | Some (OList (_ :: _)) => Ok true
      | Some (ODict d) => Ok (negb (bool_decide (d = ∅)))
      | Some (OInst _ _) => Ok true
      | None => Raise OutOfModel
      end
  end.

(** [v[0]].  The dictionaries of the script have string keys only, so the key
    0 is never there. *)
Definition subscript0 (v : val) (h : gmap loc obj) : result val :=
  match v with
  | VNone => Raise TypeError
  | VStr EmptyString => Raise IndexError
  | VStr (String c _) => Ok (VStr (String c EmptyString))
  | VRef l =>
      match h !! l with
      | Some (OList []) => Raise IndexError
      | Some (OList (x :: _)) => Ok x
      | Some (ODict _) => Raise KeyError
      | Some (OInst _ _) => Raise TypeError
      | None => Raise OutOfModel
      end
  end.

(** [v == s] for a string [s]: only an equal string is equal to it. *)
Definition eq_str (v : val) (s : string) : bool :=
  match v with
  | VStr s' => bool_decide (s' = s)
  | VNone | VRef _ => false
  end.

(** [v[k]] for a string key [k]. *)
Definition subscript_key (v : val) (k : string) (h : gmap loc obj) : result val :=
  match v with
  | VNone | VStr _ => Raise TypeError
  | VRef l =>
      match h !! l with
      | Some (ODict d) =>
          match d !! k with
          | Some x => Ok x
          | None => Raise KeyError
          end
      | Some (OList _) | Some (OInst _ _) => Raise TypeError
      | None => Raise OutOfModel
      end
  end.

(** Looking up the method [get] on [v], before its arguments are evaluated:
    only a dictionary has it; an instance attribute of that name would be a
    value, and no value of this store can be called. *)
Definition lookup_get (v : val) (h : gmap loc obj) : result (gmap string val + unit) :=
  match v with
  | VNone | VStr _ => Raise AttributeError
  | VRef l =>
      match h !! l with
      | Some (ODict d) => Ok (inl d)
      | Some (OList _) => Raise AttributeError
      | Some (OInst _ attrs) =>
          match attrs !! "get" with
          | Some _ => Ok (inr tt)
          | None => Raise AttributeError
          end
      | None => Raise OutOfModel
      end
  end.

(** [v.get(k, [])]: the method is looked up, the default list is built, and
    then the call is made. *)
Definition get_or_new_list (v : val) (k : string) : H val :=
  m ← inspect (lookup_get v);
  dflt ← alloc (OList []);
  match m with
  | inl d => mret (default dflt (d !! k))
  | inr _ => raise TypeError
  end.

(** Looking up the method [generate_content] on [v]: an instance of
    [MockClient] has it unless an attribute of the instance hides it. *)
Definition lookup_generate_content (v : val) (h : gmap loc obj) : result bool :=
  match v with
  | VNone | VStr _ => Raise AttributeError
  | VRef l =>
      match h !! l with
      | Some (ODict _) | Some (OList _) => Raise AttributeError
      | Some (OInst c attrs) =>
          match attrs !! "generate_content", c with
          | Some _, _ => Ok false
          | None, CMockClient => Ok true
          | None, _ => Raise AttributeError
          end
      | None => Raise OutOfModel
      end
  end.

(** [MockTool(name)]: a new instance, then [__init__] sets its attribute. *)
Definition MockTool (name : val) : H val :=
  self ← alloc (OInst CMockTool ∅);
  setattr self "name" name;;
  mret self.

(** [MockConfig(system_instruction, tools)]. *)
Definition MockConfig (system_instruction tools : val) : H val :=
  self ← alloc (OInst CMockConfig ∅);
  setattr self "system_instruction" system_instruction;;
  setattr self "tools" tools;;
  mret self.

(** [MockClient(api_key)]: [__init__] prints and sets nothing. *)
Definition MockClient (api_key : val) : H val :=
  self ← alloc (OInst CMockClient ∅);
  print "--- Initializing Mock Gemini Client ---";;
  mret self.

(** The test of line 48. *)
Definition branch_condition (config : val) : H bool :=
  tools ← inspect (getattr config "tools");
  t ← inspect (truth tools);
  if (t : bool) then
    tools' ← inspect (getattr config "tools");
    first ← inspect (subscript0 tools');
    n ← inspect (getattr first "name");
    mret (eq_str n "google_search")
  else mret false.

(** [MockClient.generate_content].  Each display builds new objects: the two
    citations, then the list holding them, then the response. *)
Definition generate_content (self : val) (model contents : string)
    (config : val) : H val :=
  print (nl ++ "[MOCK API CALL] Model: " ++ model);;
  print ("[MOCK API CALL] Query: '" ++ contents ++ "'");;
  si ← inspect (getattr config "system_instruction");
  shown ← inspect (slice50_text si);
  print ("[MOCK API CALL] System Instruction: '" ++ shown ++ "...'");;
  c ← branch_condition config;
  if (c : bool) then
    s1 ← alloc (ODict {[ "title" := VStr "FSRPWL Community Guidelines";
                         "uri" := VStr "https://example.com/fsrpwl-rules" ]});
    s2 ← alloc (ODict {[ "title" := VStr "Roblox ER:LC Wiki";
                         "uri" := VStr "https://example.com/erlc-wiki" ]});
    sources ← alloc (OList [s1; s2]);
    alloc (ODict {[ "text" := VStr grounded_text; "sources" := sources ]})
  else
    sources ← alloc (OList []);
    alloc (ODict {[ "text" := VStr creative_text; "sources" := sources ]}).

(** [gemini_client.generate_content(...)] on the module's variable. *)
Definition call_generate_content (model contents : string) (config : val) : H val :=
  client ← load_global "gemini_client";
  found ← inspect (lookup_generate_content client);
  if (found : bool) then generate_content client model contents config
  else raise TypeError.

Definition generate_chat_response (user_query : string) : H val :=
  let system_prompt := chat_system_prompt in
  tool ← MockTool (VStr "google_search");
  tools ← alloc (OList [tool]);
  config ← MockConfig (VStr system_prompt) tools;
  api_response ← call_generate_content "gemini-2.5-flash" user_query config;
  text ← inspect (subscript_key api_response "text");
  sources ← get_or_new_list api_response "sources";
  alloc (ODict {[ "text" := text; "sources" := sources ]}).

Definition generate_rp_scenario (department : string) : H val :=
  let system_prompt := scenario_system_prompt in
  let query :=
    "Generate a short, realistic roleplay scenario (around 100 words) for the '"
    ++ department ++ "' department." in
  config ← MockConfig (VStr system_prompt) VNone;
  api_response ← call_generate_content "gemini-2.5-flash" query config;
  inspect (subscript_key api_response "text").

(** Line 84, run when the module is loaded. *)
Definition load_module (environ : gmap string string) : H unit :=
  client ← MockClient (from_option VStr VNone (environ !! "GEMINI_API_KEY"));
  store_global "gemini_client" client.

End Obj.

(** ** Vocabulary for the store *)

(** The module variable names an instance of [MockClient] whose own
    attributes do not hide the method: the state the module is in once it is
    loaded, and any state a caller can reach by changing other objects. *)
Definition client_ready (w : Obj.world) : Prop :=
  ∃ l attrs,
    Obj.globals w !! "gemini_client" = Some (Obj.VRef l) ∧
    Obj.heap w !! l = Some (Obj.OInst Obj.CMockClient attrs) ∧
    attrs !! "generate_content" = None.

(** Nothing that existed was changed: the module variables are the same and
    every object of the first store is in the second, as it was. *)
Definition unchanged (w w' : Obj.world) : Prop :=
  Obj.globals w' = Obj.globals w ∧ Obj.heap w ⊆ Obj.heap w'.

(** The reference [v] names a citation that reads as [s]. *)
Definition source_at (h : gmap Obj.loc Obj.obj) (v : Obj.val) (s : source) : Prop :=
  ∃ l, v = Obj.VRef l ∧ h !! l = Some (Obj.ODict (Obj.VStr <$> s)).

(** The value [v] reads as [x]: a string, or a list of citations. *)
Definition pyval_at (h : gmap Obj.loc Obj.obj) (v : Obj.val) (x : pyval) : Prop :=
  match x with
  | PyStr s => v = Obj.VStr s
  | PyList srcs =>
      ∃ l items, v = Obj.VRef l ∧ h !! l = Some (Obj.OList items) ∧
                 Forall2 (source_at h) items srcs
  end.

(** The reference [v] names a response that reads as [p]: the same keys, and
    under each key a value that reads as that of [p].  Two responses that read
    as the same [p] are equal for Python's [==]. *)
Definition payload_at (h : gmap Obj.loc Obj.obj) (v : Obj.val) (p : payload) : Prop :=
  ∃ l d, v = Obj.VRef l ∧ h !! l = Some (Obj.ODict d) ∧
         ∀ k, option_Forall2 (pyval_at h) (d !! k) (p !! k).

(** The objects a response is made of: the dictionary, its list of sources
    and the citations in it. *)
Definition made_of (h : gmap Obj.loc Obj.obj) (v : Obj.val) : list Obj.loc :=
  match v with
  | Obj.VRef l =>
      match h !! l with
      | Some (Obj.ODict d) =>
          match d !! "sources" with
          | Some (Obj.VRef ll) =>
              match h !! ll with
              | Some (Obj.OList items) =>
                  (l :: ll :: omap (fun x => match x with
                                             | Obj.VRef li => Some li
                                             | _ => None
                                             end) items)%list
              | _ => [l; ll]
              end
          | _ => [l]
          end
      | _ => [l]
      end
  | _ => []
  end.

(** ** The responder, equationally *)

Lemma branch_condition_first config :
  branch_condition config = Ok (first_is_search config).
Proof.
  unfold branch_condition, first_is_search.
  destruct (tools config) as [[|t ts]|]; reflexivity.
Qed.

Lemma generate_content_run self model contents config out :
  generate_content self model contents config out =
    (Ok (if first_is_search config then grounded_payload else creative_payload),
     call_trace model contents config out).
Proof.
  unfold generate_content, call_trace, mbind, M_bind, Py.bind, print, lift.
  rewrite branch_condition_first.
  destruct (first_is_search config); reflexivity.
Qed.

Lemma first_is_search_true config :
  first_is_search config = true ↔ first_tool_named "google_search" config.
Proof.
  unfold first_is_search, first_tool_named. split.
  - destruct (tools config) as [[|t ts]|]; try discriminate.
    intros H%bool_decide_eq_true. eauto.
  - intros (t & rest & -> & Hn). by apply bool_decide_eq_true.
Qed.

Lemma first_tool_has_tool n config :
  first_tool_named n config → has_tool n config.
Proof.
  intros (t & rest & Ht & Hn). exists (t :: rest), t.
  split_and!; [done | apply list_elem_of_here | done].
Qed.

Lemma first_is_search_false_of_no_tool config :
  ¬ has_tool "google_search" config → first_is_search config = false.
Proof.
  intros Hno. destruct (first_is_search config) eqn:E; [|done].
  exfalso. by apply Hno, first_tool_has_tool, first_is_search_true.
Qed.

Lemma payloads_differ : grounded_payload ≠ creative_payload.
Proof.
  intros H. apply (f_equal sources_of) in H. vm_compute in H. discriminate.
Qed.

Lemma grounded_text_FHP : contains_substring "FHP" grounded_text.
Proof.
  exists (String.substring 0 312 grounded_text),
         (String.substring 315 281 grounded_text).
  vm_compute. reflexivity.
Qed.

Lemma creative_text_robbery : contains_substring "Armed Robbery" creative_text.
Proof.
  exists "**Scenario: ", (String.substring 25 470 creative_text).
  vm_compute. reflexivity.
Qed.

Lemma grounded_payload_described : grounded_described grounded_payload.
Proof.
  split_and!; [done | | by vm_compute].
  exists grounded_text. split; [by vm_compute | apply grounded_text_FHP].
Qed.

Lemma creative_payload_described : creative_described creative_payload.
Proof.
  split_and!; [done | | by vm_compute].
  exists creative_text. split; [by vm_compute | apply creative_text_robbery].
Qed.

(** ** The responder: which response is returned *)

Section Responder.

Context (self : MockClient) (model contents : string).
Context (config : MockConfig) (out : stdout).

Local Abbreviation outcome := (generate_content self model contents config out).1.

Lemma outcome_eq :
  outcome =
    Ok (if first_is_search config then grounded_payload else creative_payload).
Proof. by rewrite generate_content_run. Qed.

Lemma outcome_grounded :
  first_tool_named "google_search" config → outcome = Ok grounded_payload.
Proof. intros H%first_is_search_true. by rewrite outcome_eq, H. Qed.

Lemma outcome_creative :
  ¬ first_tool_named "google_search" config → outcome = Ok creative_payload.
Proof.
  intros H. rewrite outcome_eq.
  destruct (first_is_search config) eqn:E; [|done].
  by apply first_is_search_true in E.
Qed.

End Responder.

Lemma search_second_has_tool : has_tool "google_search" search_second_config.
Proof.
  exists [MockTool_init "code_execution"; MockTool_init "google_search"],
         (MockTool_init "google_search").
  split_and!; [done | | done]. apply list_elem_of_further, list_elem_of_here.
Qed.

Lemma search_second_not_first :
  ¬ first_tool_named "google_search" search_second_config.
Proof. intros (t & rest & [= <- <-] & Hn). discriminate. Qed.

(** C1, counterexample: with the tools [code_execution; google_search] the
    configuration contains the search flag, yet the responder returns the
    creative response, so the any-position reading fails there. *)
Lemma respond_any_position_fails :
  ¬ any_position_reading gemini_client "gemini-2.5-flash" "Which departments exist?"
      search_second_config EmptyString.
Proof.
  intros [Hyes _].
  destruct (Hyes search_second_has_tool) as (p & Hp & (-> & _)).
  vm_compute in Hp. discriminate.
Qed.

(** C1, amended: for every call of the responder, if the tool list is
    non-empty and its first flag is named google_search, the grounded
    response is returned (its text contains FHP, its sources are the two
    fixed entries); otherwise the creative response is returned (its text
    contains Armed Robbery, its sources are empty).  A configuration with no
    flag of that name at all is one instance of the second case. *)
Theorem respond_first_position self model contents config out :
  let outcome := (generate_content self model contents config out).1 in
  (first_tool_named "google_search" config →
     ∃ p, outcome = Ok p ∧ grounded_described p) ∧
  (¬ first_tool_named "google_search" config →
     ∃ p, outcome = Ok p ∧ creative_described p) ∧
  (¬ has_tool "google_search" config →
     ∃ p, outcome = Ok p ∧ creative_described p).
Proof.
  cbv zeta. split_and!.
  - intros H. exists grounded_payload.
    split; [by apply outcome_grounded | apply grounded_payload_described].
  - intros H. exists creative_payload.
    split; [by apply outcome_creative | apply creative_payload_described].
  - intros H. exists creative_payload.
    split; [|apply creative_payload_described].
    apply outcome_creative. intros Hf. by apply H, first_tool_has_tool.
Qed.

Lemma respond_first_position_witness :
  (first_tool_named "google_search" chat_config ∧
   ∃ p, (generate_content gemini_client "gemini-2.5-flash" "hello" chat_config
           EmptyString).1 = Ok p ∧ grounded_described p) ∧
  (¬ first_tool_named "google_search" search_second_config ∧
   ∃ p, (generate_content gemini_client "gemini-2.5-flash" "hello"
           search_second_config EmptyString).1 = Ok p ∧ creative_described p) ∧
  (¬ has_tool "google_search" scenario_config ∧
   ∃ p, (generate_content gemini_client "gemini-2.5-flash" "hello"
           scenario_config EmptyString).1 = Ok p ∧ creative_described p).
Proof.
  assert (H1 : first_tool_named "google_search" chat_config).
  { exists (MockTool_init "google_search"), []. split; reflexivity. }
  assert (H2 : ¬ first_tool_named "google_search" search_second_config).
  { intros (t & rest & E & Hn). simpl in E. injection E as <- <-. discriminate. }
  assert (H3 : ¬ has_tool "google_search" scenario_config).
  { intros (ts & t & E & _). simpl in E. discriminate. }
  split_and!; [exact H1 | | exact H2 | | exact H3 | ].
  - exact (proj1 (respond_first_position gemini_client "gemini-2.5-flash"
                    "hello" chat_config EmptyString) H1).
  - exact (proj1 (proj2 (respond_first_position gemini_client "gemini-2.5-flash"
                           "hello" search_second_config EmptyString)) H2).
  - exact (proj2 (proj2 (respond_first_position gemini_client "gemini-2.5-flash"
                           "hello" scenario_config EmptyString)) H3).
Defined.

(** ** The services, equationally *)

Lemma generate_chat_response_run user_query out :
  generate_chat_response user_query out =
    (Ok grounded_payload,
     call_trace "gemini-2.5-flash" user_query chat_config out).
Proof.
  unfold generate_chat_response, mbind, M_bind, Py.bind.
  rewrite generate_content_run. reflexivity.
Qed.

Lemma generate_rp_scenario_run department out :
  generate_rp_scenario department out =
    (Ok (PyStr creative_text),
     call_trace "gemini-2.5-flash" (scenario_query department)
       scenario_config out).
Proof.
  unfold generate_rp_scenario, mbind, M_bind, Py.bind.
  rewrite generate_content_run. reflexivity.
Qed.

(** C2: for the query of the demonstration, the chat service returns a
    response whose sources are exactly the two fixed citations, the community
    guidelines first and the wiki second. *)
Theorem chat_demo_sources out :
  ∃ p,
    (generate_chat_response "What are the core departments in FSRPWL?" out).1
      = Ok p ∧
    p !! "sources" =
      Some (PyList
        [ {[ "title" := "FSRPWL Community Guidelines";
             "uri" := "https://example.com/fsrpwl-rules" ]};
          {[ "title" := "Roblox ER:LC Wiki";
             "uri" := "https://example.com/erlc-wiki" ]} ]).
Proof.
  exists grounded_payload. rewrite generate_chat_response_run.
  split; [reflexivity | by vm_compute].
Qed.

(** C3: for every query, the chat service returns a response whose sources
    are a list of exactly two citations, each with a non-empty title and a
    non-empty address. *)
Theorem chat_two_sources user_query out :
  ∃ p l,
    (generate_chat_response user_query out).1 = Ok p ∧
    p !! "sources" = Some (PyList l) ∧
    length l = 2 ∧
    Forall well_formed_source l.
Proof.
  exists grounded_payload, grounded_sources.
  rewrite generate_chat_response_run.
  split_and!; [reflexivity | by vm_compute | reflexivity |].
  repeat constructor.
  - exists "FSRPWL Community Guidelines", "https://example.com/fsrpwl-rules".
    split_and!; [by vm_compute | discriminate | by vm_compute | discriminate].
  - exists "Roblox ER:LC Wiki", "https://example.com/erlc-wiki".
    split_and!; [by vm_compute | discriminate | by vm_compute | discriminate].
Qed.

(** C4: the grounded branch is decided by the first tool alone.  The
    grounded response is returned if and only if the tool list is non-empty
    and its first tool is named google_search; a configuration whose first
    tool has another name gets the creative response, whatever follows it in
    the list, a later google_search included. *)
Theorem respond_first_tool_only self model contents config out :
  let outcome := (generate_content self model contents config out).1 in
  (outcome = Ok grounded_payload ↔ first_tool_named "google_search" config) ∧
  (∀ t rest,
     tools config = Some (t :: rest) → name t ≠ "google_search" →
     outcome = Ok creative_payload ∧ outcome ≠ Ok grounded_payload).
Proof.
  cbv zeta. split.
  - split; [|apply outcome_grounded].
    rewrite outcome_eq. destruct (first_is_search config) eqn:E.
    + intros _. by apply first_is_search_true.
    + intros H. exfalso. apply payloads_differ. congruence.
  - intros t rest Ht Hn.
    assert (Hc : (generate_content self model contents config out).1
                 = Ok creative_payload).
    { apply outcome_creative. intros (t' & rest' & Ht' & Hn').
      rewrite Ht in Ht'. injection Ht' as <- <-. done. }
    split; [exact Hc|]. rewrite Hc. intros H. apply payloads_differ. congruence.
Qed.

Lemma respond_first_tool_only_witness :
  has_tool "google_search" search_second_config ∧
  (generate_content gemini_client "gemini-2.5-flash" "hello"
     search_second_config EmptyString).1 = Ok creative_payload ∧
  (generate_content gemini_client "gemini-2.5-flash" "hello"
     search_second_config EmptyString).1 ≠ Ok grounded_payload.
Proof.
  split; [apply search_second_has_tool|].
  apply (proj2 (respond_first_tool_only gemini_client "gemini-2.5-flash"
                  "hello" search_second_config EmptyString)
           (MockTool_init "code_execution") [MockTool_init "google_search"]).
  - reflexivity.
  - simpl. discriminate.
Defined.

(** C5: for the department of the demonstration, the scenario service
    returns a string that starts with the scenario heading. *)
Theorem scenario_demo_prefix out :
  ∃ s,
    (generate_rp_scenario "Sheriff's Office" out).1 = Ok (PyStr s) ∧
    starts_with "**Scenario: Armed Robbery in Progress.**" s.
Proof.
  exists creative_text. rewrite generate_rp_scenario_run.
  split; [reflexivity|].
  exists (String.substring 40 455 creative_text). vm_compute. reflexivity.
Qed.

(** C6: for every department, the scenario service returns a non-empty
    string, and that string is the text field of the response the responder
    gave for the prompt built from the department; the result is the bare
    string, it carries no sources. *)
Theorem scenario_text_only department out :
  ∃ s p,
    (generate_content gemini_client "gemini-2.5-flash"
       (scenario_query department) scenario_config out).1 = Ok p ∧
    p !! "text" = Some (PyStr s) ∧
    (generate_rp_scenario department out).1 = Ok (PyStr s) ∧
    s ≠ EmptyString ∧ 0 < String.length s.
Proof.
  exists creative_text, creative_payload.
  rewrite generate_rp_scenario_run, generate_content_run.
  split_and!; [reflexivity | by vm_compute | reflexivity | discriminate |].
  vm_compute. lia.
Qed.

(** C7: for every call of the responder, the returned response has a
    non-empty text, and if its sources are not empty then the configuration
    carried the google_search flag. *)
Theorem respond_invariant self model contents config out :
  ∃ p s l,
    (generate_content self model contents config out).1 = Ok p ∧
    text_of p = Some s ∧ s ≠ EmptyString ∧
    sources_of p = Some l ∧
    (l ≠ [] → has_tool "google_search" config).
Proof.
  rewrite generate_content_run. destruct (first_is_search config) eqn:E.
  - exists grounded_payload, grounded_text, grounded_sources.
    split_and!; [reflexivity | by vm_compute | discriminate | by vm_compute |].
    intros _. by apply first_tool_has_tool, first_is_search_true.
  - exists creative_payload, creative_text, [].
    split_and!; [reflexivity | by vm_compute | discriminate | by vm_compute |].
    intros H. by destruct H.
Qed.

Lemma respond_invariant_witness : has_tool "google_search" chat_config.
Proof.
  destruct (respond_invariant gemini_client "gemini-2.5-flash" "hello"
              chat_config EmptyString) as (p & s & l & Hp & _ & _ & Hl & Himp).
  apply Himp. intros ->.
  rewrite generate_content_run in Hp. simpl in Hp.
  assert (p = grounded_payload) as -> by congruence.
  vm_compute in Hl. discriminate.
Defined.

(** Appending strings is associative. *)
Lemma string_app_assoc (a b c : string) : (a ++ b) ++ c = a ++ b ++ c.
Proof.
  induction a as [|x a IH]; [reflexivity|].
  change (String x ((a ++ b) ++ c) = String x (a ++ b ++ c)). by rewrite IH.
Qed.

Lemma call_trace_appends model contents config out :
  call_trace model contents config out =
    out ++ call_trace model contents config EmptyString.
Proof. unfold call_trace. by rewrite !string_app_assoc. Qed.

(** C9: the responder is total.  For every client, model, prompt and
    configuration, a tool list that is absent or empty included, it returns a
    response.  Whenever the subscript [tools[0]] would raise, the guard before
    it is false, so the test yields False without evaluating the subscript. *)
Theorem respond_total self model contents config out :
  (∃ p, (generate_content self model contents config out).1 = Ok p) ∧
  (∀ e, getitem (tools config) 0 = Raise e →
        truthy (tools config) = false ∧ branch_condition config = Ok false).
Proof.
  split.
  - rewrite generate_content_run. eauto.
  - intros e. unfold branch_condition.
    destruct (tools config) as [[|t ts]|]; simpl; [done | discriminate | done].
Qed.

Lemma respond_total_witness :
  (∃ p, (generate_content gemini_client "gemini-2.5-flash" "hello"
           scenario_config EmptyString).1 = Ok p) ∧
  (∃ p, (generate_content gemini_client "gemini-2.5-flash" "hello"
           (MockConfig_init "persona" (Some [])) EmptyString).1 = Ok p) ∧
  truthy (tools scenario_config) = false ∧
  branch_condition scenario_config = Ok false ∧
  truthy (tools (MockConfig_init "persona" (Some []))) = false ∧
  branch_condition (MockConfig_init "persona" (Some [])) = Ok false.
Proof.
  pose proof (respond_total gemini_client "gemini-2.5-flash" "hello"
                scenario_config EmptyString) as [H1 H2].
  pose proof (respond_total gemini_client "gemini-2.5-flash" "hello"
                (MockConfig_init "persona" (Some [])) EmptyString) as [H3 H4].
  split; [exact H1|]. split; [exact H3|].
  split; [apply (H2 TypeError); reflexivity|].
  split; [apply (H2 TypeError); reflexivity|].
  split; [apply (H4 IndexError); reflexivity|].
  apply (H4 IndexError); reflexivity.
Defined.

(** C10: the response does not depend on the model or on the prompt.  Two
    calls whose configurations take the same branch of the tool test return
    equal responses, whatever the clients, models, prompts and earlier output
    are. *)
Theorem respond_ignores_model_and_prompt
    self1 self2 model1 model2 contents1 contents2 config1 config2 out1 out2 :
  branch_condition config1 = branch_condition config2 →
  (generate_content self1 model1 contents1 config1 out1).1
    = (generate_content self2 model2 contents2 config2 out2).1.
Proof.
  rewrite !branch_condition_first, !generate_content_run. simpl.
  by intros [= ->].
Qed.

Lemma respond_ignores_model_and_prompt_witness :
  (generate_content gemini_client "gemini-2.5-flash" "first prompt"
     scenario_config EmptyString).1
    = (generate_content gemini_client "gemini-2.5-pro" "second prompt"
         search_second_config "earlier output").1.
Proof.
  apply respond_ignores_model_and_prompt. reflexivity.
Defined.


(** ** Strings: slices and cancellation *)

Lemma string_app_length (a b : string) :
  String.length (a ++ b) = String.length a + String.length b.
Proof.
  induction a as [|x a IH]; [reflexivity|].
  change (S (String.length (a ++ b)) = S (String.length a + String.length b)).
  by rewrite IH.
Qed.

Lemma string_app_nil_r (a : string) : a ++ EmptyString = a.
Proof.
  induction a as [|x a IH]; [reflexivity|].
  change (String x (a ++ EmptyString) = String x a). by rewrite IH.
Qed.

(** A common suffix can be cancelled. *)
Lemma string_app_inv_tail (a b s : string) : a ++ s = b ++ s → a = b.
Proof.
  revert b. induction a as [|x a IH]; intros [|y b] H.
  - reflexivity.
  - apply (f_equal String.length) in H.
    rewrite !string_app_length in H. simpl in H. lia.
  - apply (f_equal String.length) in H.
    rewrite !string_app_length in H. simpl in H. lia.
  - change (String x (a ++ s) = String y (b ++ s)) in H.
    injection H as -> H. f_equal. by apply IH.
Qed.

(** A common prefix can be cancelled. *)
Lemma string_app_inv_head (p a b : string) : p ++ a = p ++ b → a = b.
Proof.
  induction p as [|x p IH]; [done|].
  change (String x (p ++ a) = String x (p ++ b) → a = b).
  intros [= H]. by apply IH.
Qed.

Lemma slice_to_split (n : nat) (s : string) :
  ∃ rest, s = slice_to n s ++ rest.
Proof.
  unfold slice_to. revert s. induction n as [|n IH]; intros s.
  - exists s. by destruct s.
  - destruct s as [|c s]; [by exists EmptyString|].
    destruct (IH s) as [rest Hrest]. exists rest.
    change (String c s = String c (String.substring 0 n s ++ rest)).
    by rewrite <- Hrest.
Qed.

Lemma slice_to_length (n : nat) (s : string) :
  String.length (slice_to n s) = Nat.min n (String.length s).
Proof.
  unfold slice_to. revert s. induction n as [|n IH]; intros s.
  - by destruct s.
  - destruct s as [|c s]; [reflexivity|]. simpl. by rewrite IH.
Qed.

Lemma slice_to_all (n : nat) (s : string) :
  (String.length s ≤ n)%nat → slice_to n s = s.
Proof.
  intros Hlen. destruct (slice_to_split n s) as [rest Hrest].
  assert (Hr : String.length rest = 0).
  { apply (f_equal String.length) in Hrest.
    rewrite string_app_length, slice_to_length in Hrest. lia. }
  destruct rest; [|discriminate].
  rewrite string_app_nil_r in Hrest. done.
Qed.

(** ** Computations that only add to standard output *)

Lemma appending_ret {A} (a : A) : appending (mret a : M A).
Proof. intros out. unfold mret, M_ret, Py.ret. simpl. by rewrite string_app_nil_r. Qed.

Lemma appending_lift {A} (r : result A) : appending (lift r).
Proof. intros out. unfold lift. simpl. by rewrite string_app_nil_r. Qed.

Lemma appending_print (s : string) : appending (print s).
Proof. intros out. reflexivity. Qed.

Lemma appending_bind {A B} (m : M A) (k : A → M B) :
  appending m → (∀ a, appending (k a)) → appending (m ≫= k).
Proof.
  intros Hm Hk out. unfold mbind, M_bind, Py.bind.
  rewrite (Hm out). destruct (m EmptyString) as [[a|e] t]; simpl.
  - rewrite (Hk a (out ++ t)), (Hk a t). simpl. by rewrite string_app_assoc.
  - reflexivity.
Qed.

Lemma appending_for_each {A} (body : A → M unit) (l : list A) :
  (∀ x, appending (body x)) → appending (for_each body l).
Proof.
  intros Hb. induction l as [|x l IH]; simpl.
  - apply appending_ret.
  - apply appending_bind; [apply Hb | intros _; apply IH].
Qed.

Lemma appending_generate_content self model contents config :
  appending (generate_content self model contents config).
Proof.
  intros out. rewrite !generate_content_run. simpl.
  by rewrite call_trace_appends.
Qed.

Lemma appending_print_source source : appending (print_source source).
Proof.
  unfold print_source.
  apply appending_bind; [apply appending_lift | intros title].
  apply appending_bind; [apply appending_lift | intros uri].
  apply appending_print.
Qed.

Lemma appending_print_sources chat_response :
  appending (print_sources chat_response).
Proof.
  unfold print_sources.
  apply appending_bind; [apply appending_lift | intros sources].
  destruct (pyval_truthy sources); [|apply appending_ret].
  apply appending_bind; [apply appending_print | intros _].
  apply appending_bind; [apply appending_lift | intros [[|c s]|l]]; simpl.
  - apply appending_ret.
  - apply appending_lift.
  - apply appending_for_each, appending_print_source.
Qed.

(** ** What one call of the responder prints *)

(** X1: one call of the responder adds exactly three lines to standard
    output, after a blank line: the model and the prompt in full, and the
    system instruction cut to its first 50 characters (all of it when it is
    shorter) followed by three dots.  The tool list does not show. *)
Theorem responder_trace self model contents config out :
  ∃ shown rest,
    system_instruction config = shown ++ rest ∧
    String.length shown = Nat.min 50 (String.length (system_instruction config)) ∧
    (generate_content self model contents config out).2 =
      out ++ nl ++ "[MOCK API CALL] Model: " ++ model ++ nl
          ++ "[MOCK API CALL] Query: '" ++ contents ++ "'" ++ nl
          ++ "[MOCK API CALL] System Instruction: '" ++ shown ++ "...'" ++ nl.
Proof.
  destruct (slice_to_split 50 (system_instruction config)) as [rest Hrest].
  exists (slice_to 50 (system_instruction config)), rest.
  split_and!; [exact Hrest | apply slice_to_length |].
  rewrite generate_content_run. unfold call_trace. simpl.
  by rewrite !string_app_assoc.
Qed.

(** X2: a system instruction of at most 50 characters is printed whole, and
    the three dots still follow it although nothing was cut. *)
Theorem responder_trace_short self model contents config out :
  (String.length (system_instruction config) ≤ 50)%nat →
  (generate_content self model contents config out).2 =
    out ++ nl ++ "[MOCK API CALL] Model: " ++ model ++ nl
        ++ "[MOCK API CALL] Query: '" ++ contents ++ "'" ++ nl
        ++ "[MOCK API CALL] System Instruction: '"
        ++ system_instruction config ++ "...'" ++ nl.
Proof.
  intros Hlen. rewrite generate_content_run. unfold call_trace. simpl.
  rewrite (slice_to_all 50 _ Hlen). by rewrite !string_app_assoc.
Qed.

Lemma responder_trace_short_witness :
  (generate_content gemini_client "gemini-2.5-flash" "hello"
     (MockConfig_init "Be brief." None) "earlier").2 =
    "earlier" ++ nl ++ "[MOCK API CALL] Model: gemini-2.5-flash" ++ nl
      ++ "[MOCK API CALL] Query: 'hello'" ++ nl
      ++ "[MOCK API CALL] System Instruction: 'Be brief....'" ++ nl.
Proof.
  rewrite (responder_trace_short gemini_client "gemini-2.5-flash" "hello"
             (MockConfig_init "Be brief." None) "earlier").
  - reflexivity.
  - simpl. lia.
Defined.

(** ** The dictionary the chat service returns *)

Lemma chat_result_idem text sources :
  chat_result {[ "text" := text; "sources" := sources ]}
    = Ok {[ "text" := text; "sources" := sources ]}.
Proof.
  unfold chat_result, dict_getitem, dict_get.
  rewrite lookup_insert_eq, lookup_insert_ne by done.
  by rewrite lookup_singleton_eq.
Qed.

(** X3: the repackaging of lines 111-114, for any response.  Without a text
    it raises KeyError.  With one, the result has exactly the keys text and
    sources, whatever else the response held: the text is the response's, the
    sources are the response's or the empty list when it has none, and
    repackaging the result again returns it unchanged. *)
Theorem chat_result_shape (api_response : payload) :
  (api_response !! "text" = None → chat_result api_response = Raise KeyError) ∧
  (∀ text, api_response !! "text" = Some text →
     ∃ p, chat_result api_response = Ok p ∧
          dom p = ({[ "text"; "sources" ]} : gset string) ∧
          p !! "text" = Some text ∧
          p !! "sources" = Some (default (PyList []) (api_response !! "sources")) ∧
          chat_result p = Ok p).
Proof.
  split.
  - intros H. unfold chat_result, dict_getitem. by rewrite H.
  - intros text H. unfold chat_result at 1, dict_getitem, dict_get. rewrite H.
    eexists. split; [reflexivity|]. split_and!.
    + by rewrite dom_insert_L, dom_singleton_L.
    + by rewrite lookup_insert_eq.
    + rewrite lookup_insert_ne by done. by rewrite lookup_singleton_eq.
    + apply chat_result_idem.
Qed.

Lemma chat_result_shape_witness :
  chat_result {[ "sources" := PyList [source_wiki] ]} = Raise KeyError ∧
  ∃ p, chat_result {[ "text" := PyStr "hi"; "model" := PyStr "mock" ]} = Ok p ∧
       dom p = ({[ "text"; "sources" ]} : gset string) ∧
       p !! "text" = Some (PyStr "hi") ∧
       p !! "sources" =
         Some (default (PyList [])
                 (({[ "text" := PyStr "hi"; "model" := PyStr "mock" ]} : payload)
                    !! "sources")) ∧
       chat_result p = Ok p.
Proof.
  split.
  - apply (proj1 (chat_result_shape {[ "sources" := PyList [source_wiki] ]})).
    reflexivity.
  - apply (proj2 (chat_result_shape
                    {[ "text" := PyStr "hi"; "model" := PyStr "mock" ]})).
    reflexivity.
Defined.

(** X4: the chat service is the responder called with the model
    gemini-2.5-flash, the query and the search configuration, followed by the
    repackaging; and since the responder's grounded response has just the two
    keys, the service returns the responder's response unchanged and prints
    what the responder prints, nothing more. *)
Theorem chat_service_is_responder user_query out :
  generate_chat_response user_query out =
    (generate_content gemini_client "gemini-2.5-flash" user_query chat_config
       ≫= λ api_response, lift (chat_result api_response)) out ∧
  generate_chat_response user_query out =
    generate_content gemini_client "gemini-2.5-flash" user_query chat_config out.
Proof.
  rewrite generate_chat_response_run.
  unfold mbind, M_bind, Py.bind. rewrite generate_content_run. split; reflexivity.
Qed.

(** ** The argument of a service shows in the trace only *)

Lemma call_trace_prompt_inj model config out (a b : string) :
  call_trace model a config out = call_trace model b config out → a = b.
Proof.
  unfold call_trace. rewrite !string_app_assoc.
  intros H. repeat apply string_app_inv_head in H.
  by apply string_app_inv_tail in H.
Qed.

Lemma scenario_query_inj (a b : string) :
  scenario_query a = scenario_query b → a = b.
Proof.
  unfold scenario_query. intros H. apply string_app_inv_head in H.
  by apply string_app_inv_tail in H.
Qed.

(** X5: the query of the chat service and the department of the scenario
    service never change the value returned, but they are written to the
    trace: two different arguments give the same value and different
    output. *)
Theorem service_argument_shows_in_trace_only (a b : string) (out : stdout) :
  a ≠ b →
  ((generate_chat_response a out).1 = (generate_chat_response b out).1 ∧
   (generate_chat_response a out).2 ≠ (generate_chat_response b out).2) ∧
  ((generate_rp_scenario a out).1 = (generate_rp_scenario b out).1 ∧
   (generate_rp_scenario a out).2 ≠ (generate_rp_scenario b out).2).
Proof.
  intros Hne. rewrite !generate_chat_response_run, !generate_rp_scenario_run.
  simpl. split; (split; [reflexivity|]); intros H; apply Hne.
  - by apply call_trace_prompt_inj in H.
  - by apply call_trace_prompt_inj, scenario_query_inj in H.
Qed.

Lemma service_argument_shows_in_trace_only_witness :
  ((generate_chat_response "FHP" EmptyString).1
     = (generate_chat_response "google_search" EmptyString).1 ∧
   (generate_chat_response "FHP" EmptyString).2
     ≠ (generate_chat_response "google_search" EmptyString).2) ∧
  ((generate_rp_scenario "FHP" EmptyString).1
     = (generate_rp_scenario "google_search" EmptyString).1 ∧
   (generate_rp_scenario "FHP" EmptyString).2
     ≠ (generate_rp_scenario "google_search" EmptyString).2).
Proof.
  apply (service_argument_shows_in_trace_only "FHP" "google_search" EmptyString).
  discriminate.
Defined.

(** ** The listing of the sources *)

Lemma print_source_ok (s : source) out :
  printable_source s →
  print_source s out = (Ok tt, out ++ listing [s]).
Proof.
  intros [[t Ht] [u Hu]].
  unfold print_source, listing, mbind, M_bind, Py.bind, lift, dict_getitem, print.
  simpl. rewrite Ht, Hu. simpl.
  by rewrite !string_app_assoc, string_app_nil_r.
Qed.

Lemma print_source_fail (s : source) out :
  ¬ printable_source s → print_source s out = (Raise KeyError, out).
Proof.
  intros Hno.
  unfold print_source, mbind, M_bind, Py.bind, lift, dict_getitem.
  destruct (s !! "title") as [t|] eqn:Ht; [|reflexivity].
  destruct (s !! "uri") as [u|] eqn:Hu; [|reflexivity].
  destruct Hno. split; eauto.
Qed.

Lemma listing_cons (s : source) (l : list source) :
  listing (s :: l) = listing [s] ++ listing l.
Proof.
  unfold listing. simpl. by rewrite !string_app_assoc.
Qed.

Lemma for_each_print_source_ok (l : list source) out :
  Forall printable_source l →
  for_each print_source l out = (Ok tt, out ++ listing l).
Proof.
  intros Hl. revert out. induction Hl as [|s l Hs Hl IH]; intros out.
  - unfold listing. simpl. unfold mret, M_ret, Py.ret.
    by rewrite string_app_nil_r.
  - cbn [for_each]. unfold mbind, M_bind, Py.bind.
    rewrite (print_source_ok _ _ Hs), IH, (listing_cons s l).
    by rewrite string_app_assoc.
Qed.

Lemma for_each_print_source_fail (l1 l2 : list source) (s : source) out :
  Forall printable_source l1 → ¬ printable_source s →
  for_each print_source (l1 ++ s :: l2)%list out
    = (Raise KeyError, out ++ listing l1).
Proof.
  intros Hl Hs. revert out. induction Hl as [|s1 l1 Hs1 Hl IH]; intros out.
  - simpl. unfold mbind, M_bind, Py.bind. rewrite (print_source_fail _ _ Hs).
    unfold listing. simpl. by rewrite string_app_nil_r.
  - cbn [for_each app]. unfold mbind, M_bind, Py.bind.
    rewrite (print_source_ok _ _ Hs1), IH, (listing_cons s1 l1).
    by rewrite string_app_assoc.
Qed.

Lemma print_sources_list (chat_response : payload) (l : list source) out :
  chat_response !! "sources" = Some (PyList l) →
  print_sources chat_response out =
    match l with
    | [] => (Ok tt, out)
    | _ :: _ => for_each print_source l (out ++ (nl ++ "Sources Used:") ++ nl)
    end.
Proof.
  intros H.
  unfold print_sources, mbind, M_bind, Py.bind, lift, dict_getitem, print.
  rewrite H. by destruct l.
Qed.

Lemma fixed_sources_printable :
  printable_source source_guidelines ∧ printable_source source_wiki.
Proof.
  split; (split; [eexists; by vm_compute | eexists; by vm_compute]).
Qed.

(** X6: the listing of lines 153-156, for a response whose sources are a list
    of citations that all have a title and an address.  An empty list prints
    nothing at all, not even the heading; otherwise the heading is printed
    after a blank line, then one line per citation, in the order of the
    list, and the listing ends normally. *)
Theorem print_sources_listing (chat_response : payload) (l : list source) out :
  chat_response !! "sources" = Some (PyList l) →
  Forall printable_source l →
  print_sources chat_response out =
    (Ok tt,
     out ++ match l with
            | [] => EmptyString
            | _ :: _ => nl ++ "Sources Used:" ++ nl ++ listing l
            end).
Proof.
  intros H Hl. rewrite (print_sources_list _ _ _ H). destruct l as [|s l].
  - by rewrite string_app_nil_r.
  - rewrite (for_each_print_source_ok _ _ Hl). by rewrite !string_app_assoc.
Qed.

Lemma print_sources_listing_witness :
  print_sources grounded_payload "earlier" =
    (Ok tt,
     "earlier" ++ nl ++ "Sources Used:" ++ nl
       ++ "- FSRPWL Community Guidelines: https://example.com/fsrpwl-rules" ++ nl
       ++ "- Roblox ER:LC Wiki: https://example.com/erlc-wiki" ++ nl).
Proof.
  rewrite (print_sources_listing grounded_payload grounded_sources "earlier").
  - reflexivity.
  - reflexivity.
  - destruct fixed_sources_printable as [Hg Hw].
    constructor; [exact Hg|]. constructor; [exact Hw|]. constructor.
Defined.

(** X7: a citation that lacks its title or its address stops the listing
    with KeyError.  The heading and the lines of the citations before it are
    already printed; nothing is printed for it or for those after it. *)
Theorem print_sources_key_error (chat_response : payload)
    (l1 l2 : list source) (s : source) out :
  chat_response !! "sources" = Some (PyList (l1 ++ s :: l2)%list) →
  Forall printable_source l1 →
  ¬ printable_source s →
  print_sources chat_response out =
    (Raise KeyError, out ++ nl ++ "Sources Used:" ++ nl ++ listing l1).
Proof.
  intros H Hl Hs. rewrite (print_sources_list _ _ _ H).
  destruct (l1 ++ s :: l2)%list as [|x l] eqn:E; [by destruct l1|].
  rewrite <- E, (for_each_print_source_fail _ _ _ _ Hl Hs).
  by rewrite !string_app_assoc.
Qed.

Lemma print_sources_key_error_witness :
  print_sources
    {[ "text" := PyStr "hi";
       "sources" := PyList [source_wiki; {[ "title" := "No address" ]};
                            source_guidelines] ]}
    EmptyString =
    (Raise KeyError,
     nl ++ "Sources Used:" ++ nl
        ++ "- Roblox ER:LC Wiki: https://example.com/erlc-wiki" ++ nl).
Proof.
  rewrite (print_sources_key_error _ [source_wiki] [source_guidelines]
             {[ "title" := "No address" ]} EmptyString).
  - reflexivity.
  - reflexivity.
  - constructor; [apply fixed_sources_printable | constructor].
  - intros [_ [u Hu]]. vm_compute in Hu. discriminate.
Defined.

Lemma print_sources_ext (r1 r2 : payload) out :
  r1 !! "sources" = r2 !! "sources" →
  print_sources r1 out = print_sources r2 out.
Proof.
  intros H.
  unfold print_sources, mbind, M_bind, Py.bind, lift, dict_getitem.
  by rewrite H.
Qed.

(** X8: repackaging, then listing.  On the dictionary the chat service
    builds, the subscript ['sources'] of the listing cannot fail: when the
    response had no sources the listing prints nothing and ends normally, and
    when it had some the listing does what it would do on the response
    itself. *)
Theorem repackaged_sources_listing (api_response p : payload) out :
  chat_result api_response = Ok p →
  (api_response !! "sources" = None → print_sources p out = (Ok tt, out)) ∧
  (is_Some (api_response !! "sources") →
     print_sources p out = print_sources api_response out).
Proof.
  unfold chat_result, dict_getitem, dict_get.
  destruct (api_response !! "text") as [text|]; [|discriminate].
  intros [= <-]. split.
  - intros H. rewrite H. simpl.
    rewrite (print_sources_list _ [] out); [done|].
    rewrite lookup_insert_ne by done. by rewrite lookup_singleton_eq.
  - intros [v Hv]. apply print_sources_ext.
    rewrite lookup_insert_ne by done. by rewrite lookup_singleton_eq, Hv.
Qed.

Lemma repackaged_sources_listing_witness :
  print_sources {[ "text" := PyStr "hi"; "sources" := PyList [] ]} "earlier"
    = (Ok tt, "earlier") ∧
  print_sources {[ "text" := PyStr grounded_text;
                   "sources" := PyList grounded_sources ]} "earlier"
    = print_sources grounded_payload "earlier".
Proof.
  split.
  - refine (proj1 (repackaged_sources_listing {[ "text" := PyStr "hi" ]}
                     {[ "text" := PyStr "hi"; "sources" := PyList [] ]}
                     "earlier" _) _); vm_compute; reflexivity.
  - refine (proj2 (repackaged_sources_listing grounded_payload
                     {[ "text" := PyStr grounded_text;
                        "sources" := PyList grounded_sources ]}
                     "earlier" _) _); [vm_compute; reflexivity|].
    exists (PyList grounded_sources). vm_compute. reflexivity.
Defined.

(** ** The whole script *)

Lemma appending_generate_chat_response user_query :
  appending (generate_chat_response user_query).
Proof.
  intros out. rewrite !generate_chat_response_run. simpl.
  by rewrite call_trace_appends.
Qed.

Lemma appending_generate_rp_scenario department :
  appending (generate_rp_scenario department).
Proof.
  intros out. rewrite !generate_rp_scenario_run. simpl.
  by rewrite call_trace_appends.
Qed.

Lemma appending_print_value str_of_list v :
  appending (print_value str_of_list v).
Proof. destruct v; apply appending_print. Qed.

Ltac appending_step :=
  lazymatch goal with
  | |- appending (mbind _ _) => apply appending_bind; [|intros ?]
  | |- appending (print _) => apply appending_print
  | |- appending (lift _) => apply appending_lift
  | |- appending (mret _) => apply appending_ret
  | |- appending (print_value _ _) => apply appending_print_value
  | |- appending (print_sources _) => apply appending_print_sources
  | |- appending (generate_chat_response _) =>
      apply appending_generate_chat_response
  | |- appending (generate_rp_scenario _) =>
      apply appending_generate_rp_scenario
  end.

Lemma appending_main str_of_list : appending (main str_of_list).
Proof. unfold main. cbv zeta. repeat appending_step. Qed.

Lemma appending_script str_of_list environ is_main :
  appending (script str_of_list environ is_main).
Proof.
  unfold script, MockClient_init.
  apply appending_bind; [repeat appending_step | intros _].
  destruct is_main; [apply appending_main | apply appending_ret].
Qed.

(** X9: the script from top to bottom.  Whatever the environment holds (the
    API key set or not), whatever was printed before and however a list would
    be printed, the program ends normally and adds the same transcript: the
    client's line, the grounded answer with both sources listed, the rule of
    fifty equals signs, and the scenario.  Loaded as a module instead, it
    prints the client's line only. *)
Theorem script_transcript (str_of_list : list source → string)
    (environ : gmap string string) (out : stdout) :
  script str_of_list environ true out =
    (Ok tt,
     out ++ "--- Initializing Mock Gemini Client ---" ++ nl
         ++ "--- FSRPWL AI Tool Demonstration ---" ++ nl
         ++ nl ++ "[DEMO 1] Chatbot Query: What are the core departments in FSRPWL?" ++ nl
         ++ call_trace "gemini-2.5-flash" "What are the core departments in FSRPWL?"
              chat_config EmptyString
         ++ nl ++ "--- AI Chat Response (Grounded) ---" ++ nl
         ++ grounded_text ++ nl
         ++ nl ++ "Sources Used:" ++ nl
         ++ "- FSRPWL Community Guidelines: https://example.com/fsrpwl-rules" ++ nl
         ++ "- Roblox ER:LC Wiki: https://example.com/erlc-wiki" ++ nl
         ++ nl ++ "==================================================" ++ nl ++ nl
         ++ "[DEMO 2] Scenario Request for: Sheriff's Office" ++ nl
         ++ call_trace "gemini-2.5-flash" (scenario_query "Sheriff's Office")
              scenario_config EmptyString
         ++ nl ++ "--- AI Scenario Response (Creative) ---" ++ nl
         ++ creative_text ++ nl
         ++ nl ++ "--- Demonstration Complete ---" ++ nl) ∧
  script str_of_list environ false out =
    (Ok tt, out ++ "--- Initializing Mock Gemini Client ---" ++ nl).
Proof.
  split; rewrite (appending_script _ _ _ out); reflexivity.
Qed.

(** ** The store: allocation and the constructors *)

Lemma fresh_loc_None (h : gmap Obj.loc Obj.obj) : h !! fresh (dom h) = None.
Proof. apply not_elem_of_dom, is_fresh. Qed.

Lemma obj_alloc_run (o : Obj.obj) (w : Obj.world) :
  ∃ l, Obj.heap w !! l = None ∧
       Obj.alloc o w =
         (Obj.Ok (Obj.VRef l),
          Obj.World (Obj.out w) (<[l := o]> (Obj.heap w)) (Obj.globals w)).
Proof. exists (fresh (dom (Obj.heap w))). split; [apply fresh_loc_None | done]. Qed.

Lemma obj_MockTool_run (name : Obj.val) (w : Obj.world) :
  ∃ l, Obj.heap w !! l = None ∧
       Obj.MockTool name w =
         (Obj.Ok (Obj.VRef l),
          Obj.World (Obj.out w)
            (<[l := Obj.OInst Obj.CMockTool {[ "name" := name ]}]> (Obj.heap w))
            (Obj.globals w)).
Proof.
  destruct (obj_alloc_run (Obj.OInst Obj.CMockTool ∅) w) as (l & Hl & Ha).
  exists l. split; [done|].
  unfold Obj.MockTool, mbind, Obj.H_bind, Obj.bind. rewrite Ha.
  unfold Obj.setattr. simpl. rewrite lookup_insert_eq. simpl.
  by rewrite insert_insert_eq, insert_empty.
Qed.

Lemma obj_MockConfig_run (si tools : Obj.val) (w : Obj.world) :
  ∃ l, Obj.heap w !! l = None ∧
       Obj.MockConfig si tools w =
         (Obj.Ok (Obj.VRef l),
          Obj.World (Obj.out w)
            (<[l := Obj.OInst Obj.CMockConfig
                      {[ "tools" := tools; "system_instruction" := si ]}]>
               (Obj.heap w))
            (Obj.globals w)).
Proof.
  destruct (obj_alloc_run (Obj.OInst Obj.CMockConfig ∅) w) as (l & Hl & Ha).
  exists l. split; [done|].
  unfold Obj.MockConfig, mbind, Obj.H_bind, Obj.bind. rewrite Ha.
  unfold Obj.setattr. simpl. rewrite lookup_insert_eq. simpl.
  rewrite insert_insert_eq, lookup_insert_eq. simpl.
  by rewrite insert_insert_eq, insert_empty.
Qed.

(** ** The store: the responder *)

Lemma obj_getattr_inst h l c attrs a x :
  h !! l = Some (Obj.OInst c attrs) → attrs !! a = Some x →
  Obj.getattr (Obj.VRef l) a h = Obj.Ok x.
Proof. intros Hl Ha. unfold Obj.getattr. by rewrite Hl, Ha. Qed.

Ltac obj_unfold :=
  unfold mbind, mret, Obj.H_bind, Obj.H_ret, Obj.bind, Obj.ret, Obj.raise,
    Obj.inspect, Obj.print;
  cbn [Obj.heap Obj.out Obj.globals].

Lemma obj_branch_condition_none lc c attrs w :
  Obj.heap w !! lc = Some (Obj.OInst c attrs) →
  attrs !! "tools" = Some Obj.VNone →
  Obj.branch_condition (Obj.VRef lc) w = (Obj.Ok false, w).
Proof.
  intros Hc Ht. unfold Obj.branch_condition. obj_unfold.
  by rewrite (obj_getattr_inst _ _ _ _ _ _ Hc Ht).
Qed.

Lemma obj_branch_condition_first lc c attrs lt first rest ct a n w :
  Obj.heap w !! lc = Some (Obj.OInst c attrs) →
  attrs !! "tools" = Some (Obj.VRef lt) →
  Obj.heap w !! lt = Some (Obj.OList (Obj.VRef first :: rest)) →
  Obj.heap w !! first = Some (Obj.OInst ct a) →
  a !! "name" = Some n →
  Obj.branch_condition (Obj.VRef lc) w
    = (Obj.Ok (Obj.eq_str n "google_search"), w).
Proof.
  intros Hc Ht Hl Hf Hn. unfold Obj.branch_condition. obj_unfold.
  rewrite (obj_getattr_inst _ _ _ _ _ _ Hc Ht).
  unfold Obj.truth, Obj.subscript0. rewrite Hl. cbv beta iota.
  by rewrite (obj_getattr_inst _ _ _ _ _ _ Hc Ht), Hl,
    (obj_getattr_inst _ _ _ _ _ _ Hf Hn).
Qed.

Lemma obj_generate_content_creative self model contents lc c attrs s w :
  Obj.heap w !! lc = Some (Obj.OInst c attrs) →
  attrs !! "system_instruction" = Some (Obj.VStr s) →
  attrs !! "tools" = Some Obj.VNone →
  ∃ ll lp,
    Obj.heap w !! ll = None ∧
    <[ll := Obj.OList []]> (Obj.heap w) !! lp = None ∧
    Obj.generate_content self model contents (Obj.VRef lc) w =
      (Obj.Ok (Obj.VRef lp),
       Obj.World
         (call_trace model contents (MockConfig_init s None) (Obj.out w))
         (<[lp := Obj.ODict {[ "text" := Obj.VStr creative_text;
                               "sources" := Obj.VRef ll ]}]>
            (<[ll := Obj.OList []]> (Obj.heap w)))
         (Obj.globals w)).
Proof.
  intros Hc Hs Ht.
  set (ll := fresh (dom (Obj.heap w))).
  set (lp := fresh (dom (<[ll := Obj.OList []]> (Obj.heap w)))).
  exists ll, lp. split_and!; [apply fresh_loc_None | apply fresh_loc_None |].
  unfold Obj.generate_content. obj_unfold.
  rewrite (obj_getattr_inst _ _ _ _ _ _ Hc Hs). unfold Obj.slice50_text.
  erewrite obj_branch_condition_none by (cbn [Obj.heap]; eassumption).
  reflexivity.
Qed.

Lemma obj_generate_content_grounded
    self model contents lc c attrs s lt first rest ct a w :
  Obj.heap w !! lc = Some (Obj.OInst c attrs) →
  attrs !! "system_instruction" = Some (Obj.VStr s) →
  attrs !! "tools" = Some (Obj.VRef lt) →
  Obj.heap w !! lt = Some (Obj.OList (Obj.VRef first :: rest)) →
  Obj.heap w !! first = Some (Obj.OInst ct a) →
  a !! "name" = Some (Obj.VStr "google_search") →
  ∃ l1 l2 ll lp,
    Obj.heap w !! l1 = None ∧
    <[l1 := Obj.ODict (Obj.VStr <$> source_guidelines)]> (Obj.heap w) !! l2 = None ∧
    <[l2 := Obj.ODict (Obj.VStr <$> source_wiki)]>
      (<[l1 := Obj.ODict (Obj.VStr <$> source_guidelines)]> (Obj.heap w)) !! ll = None ∧
    <[ll := Obj.OList [Obj.VRef l1; Obj.VRef l2]]>
      (<[l2 := Obj.ODict (Obj.VStr <$> source_wiki)]>
         (<[l1 := Obj.ODict (Obj.VStr <$> source_guidelines)]> (Obj.heap w))) !! lp = None ∧
    Obj.generate_content self model contents (Obj.VRef lc) w =
      (Obj.Ok (Obj.VRef lp),
       Obj.World
         (call_trace model contents (MockConfig_init s None) (Obj.out w))
         (<[lp := Obj.ODict {[ "text" := Obj.VStr grounded_text;
                               "sources" := Obj.VRef ll ]}]>
            (<[ll := Obj.OList [Obj.VRef l1; Obj.VRef l2]]>
               (<[l2 := Obj.ODict (Obj.VStr <$> source_wiki)]>
                  (<[l1 := Obj.ODict (Obj.VStr <$> source_guidelines)]>
                     (Obj.heap w)))))
         (Obj.globals w)).
Proof.
  intros Hc Hs Ht Hl Hf Hn.
  assert (E1 : Obj.VStr <$> source_guidelines =
               {[ "title" := Obj.VStr "FSRPWL Community Guidelines";
                  "uri" := Obj.VStr "https://example.com/fsrpwl-rules" ]}).
  { unfold source_guidelines. by rewrite fmap_insert, map_fmap_singleton. }
  assert (E2 : Obj.VStr <$> source_wiki =
               {[ "title" := Obj.VStr "Roblox ER:LC Wiki";
                  "uri" := Obj.VStr "https://example.com/erlc-wiki" ]}).
  { unfold source_wiki. by rewrite fmap_insert, map_fmap_singleton. }
  rewrite E1, E2.
  eexists _, _, _, _.
  split_and!; [apply fresh_loc_None | apply fresh_loc_None
              | apply fresh_loc_None | apply fresh_loc_None |].
  unfold Obj.generate_content. obj_unfold.
  rewrite (obj_getattr_inst _ _ _ _ _ _ Hc Hs). unfold Obj.slice50_text.
  erewrite obj_branch_condition_first by (cbn [Obj.heap]; eassumption).
  reflexivity.
Qed.

(** ** The store: reading a response back *)

Lemma source_at_mono h h' v s :
  h ⊆ h' → source_at h v s → source_at h' v s.
Proof.
  intros Hsub (l & -> & Hl). exists l. split; [done|].
  by apply (lookup_weaken h h').
Qed.

Lemma pyval_at_mono h h' v x :
  h ⊆ h' → pyval_at h v x → pyval_at h' v x.
Proof.
  intros Hsub. destruct x as [s|srcs]; simpl; [done|].
  intros (l & items & -> & Hl & Hitems). exists l, items.
  split_and!; [done | by apply (lookup_weaken h h') |].
  eapply Forall2_impl; [exact Hitems|]. intros ? ?. by apply source_at_mono.
Qed.

Lemma payload_at_mono h h' v p :
  h ⊆ h' → payload_at h v p → payload_at h' v p.
Proof.
  intros Hsub (l & d & -> & Hl & Hk). exists l, d.
  split_and!; [done | by apply (lookup_weaken h h') |].
  intros k. specialize (Hk k). destruct Hk; constructor.
  by eapply pyval_at_mono.
Qed.

Lemma unchanged_refl w : unchanged w w.
Proof. by split. Qed.

Lemma unchanged_trans w1 w2 w3 :
  unchanged w1 w2 → unchanged w2 w3 → unchanged w1 w3.
Proof.
  intros [Hg1 Hh1] [Hg2 Hh2]. split; [congruence|].
  by transitivity (Obj.heap w2).
Qed.

Lemma client_ready_unchanged w w' :
  unchanged w w' → client_ready w → client_ready w'.
Proof.
  intros [Hg Hh] (l & attrs & Hl & Ho & Ha). exists l, attrs.
  split_and!; [by rewrite Hg | by apply (lookup_weaken _ _ _ _ Ho) | done].
Qed.

Lemma obj_call_generate_content_ready model contents config w :
  client_ready w →
  ∃ self,
    Obj.call_generate_content model contents config w =
      Obj.generate_content self model contents config w.
Proof.
  intros (l & attrs & Hl & Ho & Ha). exists (Obj.VRef l).
  unfold Obj.call_generate_content, Obj.load_global. obj_unfold.
  rewrite Hl. unfold Obj.lookup_generate_content. by rewrite Ho, Ha.
Qed.

(** ** The store: the services *)

Lemma obj_generate_rp_scenario_spec department w :
  client_ready w →
  ∃ w',
    Obj.generate_rp_scenario department w = (Obj.Ok (Obj.VStr creative_text), w') ∧
    Obj.out w' = (generate_rp_scenario department (Obj.out w)).2 ∧
    unchanged w w'.
Proof.
  intros Hready.
  destruct (obj_MockConfig_run (Obj.VStr scenario_system_prompt) Obj.VNone w)
    as (lc & Hlc & Ec).
  set (h1 := <[lc := _]> (Obj.heap w)) in Ec.
  set (w1 := Obj.World (Obj.out w) h1 (Obj.globals w)) in Ec.
  assert (S1 : Obj.heap w ⊆ h1) by by apply insert_subseteq.
  assert (R1 : client_ready w1).
  { apply (client_ready_unchanged w); [by split | done]. }
  destruct (obj_call_generate_content_ready "gemini-2.5-flash"
              (scenario_query department) (Obj.VRef lc) w1 R1) as (self & Ecall).
  destruct (obj_generate_content_creative self "gemini-2.5-flash"
              (scenario_query department) lc Obj.CMockConfig
              {[ "tools" := Obj.VNone;
                 "system_instruction" := Obj.VStr scenario_system_prompt ]}
              scenario_system_prompt w1)
    as (ll & lp & Hll & Hlp & Eg).
  { apply lookup_insert_eq. }
  { by rewrite lookup_insert_ne, lookup_singleton_eq. }
  { apply lookup_insert_eq. }
  subst w1. cbn [Obj.heap Obj.out Obj.globals] in *.
  set (h2 := <[ll := Obj.OList []]> h1) in *.
  eexists. split_and!.
  - unfold Obj.generate_rp_scenario. obj_unfold. rewrite Ec.
    fold (scenario_query department). rewrite Ecall, Eg. obj_unfold.
    unfold Obj.subscript_key. rewrite lookup_insert_eq.
    rewrite lookup_insert_eq. reflexivity.
  - cbn [Obj.out]. by rewrite generate_rp_scenario_run.
  - split; [done|]. cbn [Obj.heap].
    transitivity h1; [done|]. transitivity h2; by apply insert_subseteq.
Qed.

Lemma grounded_payload_lookup k :
  grounded_payload !! k =
    if decide (k = "text") then Some (PyStr grounded_text)
    else if decide (k = "sources") then Some (PyList grounded_sources)
    else None.
Proof.
  unfold grounded_payload. repeat case_decide; subst.
  - by rewrite lookup_insert_eq.
  - by rewrite lookup_insert_ne, lookup_singleton_eq.
  - by rewrite lookup_insert_ne, lookup_singleton_ne.
Qed.

Lemma obj_generate_chat_response_spec user_query w :
  client_ready w →
  ∃ r w',
    Obj.generate_chat_response user_query w = (Obj.Ok r, w') ∧
    Obj.out w' = (generate_chat_response user_query (Obj.out w)).2 ∧
    unchanged w w' ∧
    payload_at (Obj.heap w') r grounded_payload ∧
    Forall (λ l, Obj.heap w !! l = None) (made_of (Obj.heap w') r).
Proof.
  intros Hready.
  (* the configuration *)
  destruct (obj_MockTool_run (Obj.VStr "google_search") w) as (lt & Hlt & Et).
  set (h1 := <[lt := Obj.OInst Obj.CMockTool
                       {[ "name" := Obj.VStr "google_search" ]}]> (Obj.heap w)) in *.
  destruct (obj_alloc_run (Obj.OList [Obj.VRef lt])
              (Obj.World (Obj.out w) h1 (Obj.globals w))) as (ls & Hls & Es).
  cbn [Obj.heap Obj.out Obj.globals] in Hls, Es.
  set (h2 := <[ls := Obj.OList [Obj.VRef lt]]> h1) in *.
  destruct (obj_MockConfig_run (Obj.VStr chat_system_prompt) (Obj.VRef ls)
              (Obj.World (Obj.out w) h2 (Obj.globals w))) as (lc & Hlc & Ec).
  cbn [Obj.heap Obj.out Obj.globals] in Hlc, Ec.
  set (h3 := <[lc := Obj.OInst Obj.CMockConfig
                       {[ "tools" := Obj.VRef ls;
                          "system_instruction" := Obj.VStr chat_system_prompt ]}]> h2) in *.
  assert (S1 : Obj.heap w ⊆ h1) by by apply insert_subseteq.
  assert (S2 : h1 ⊆ h2) by by apply insert_subseteq.
  assert (S3 : h2 ⊆ h3) by by apply insert_subseteq.
  assert (S03 : Obj.heap w ⊆ h3) by (by do 2 (etransitivity; [eassumption|])).
  (* the call *)
  assert (R3 : client_ready (Obj.World (Obj.out w) h3 (Obj.globals w))).
  { apply (client_ready_unchanged w); [by split | done]. }
  destruct (obj_call_generate_content_ready "gemini-2.5-flash" user_query
              (Obj.VRef lc) _ R3) as (self & Ecall).
  destruct (obj_generate_content_grounded self "gemini-2.5-flash" user_query
              lc Obj.CMockConfig
              {[ "tools" := Obj.VRef ls;
                 "system_instruction" := Obj.VStr chat_system_prompt ]}
              chat_system_prompt ls lt [] Obj.CMockTool
              {[ "name" := Obj.VStr "google_search" ]}
              (Obj.World (Obj.out w) h3 (Obj.globals w)))
    as (l1 & l2 & ll & lp & Hl1 & Hl2 & Hll & Hlp & Eg).
  { apply lookup_insert_eq. }
  { by rewrite lookup_insert_ne, lookup_singleton_eq. }
  { apply lookup_insert_eq. }
  { apply (lookup_weaken h2 h3); [apply lookup_insert_eq | done]. }
  { apply (lookup_weaken h1 h3); [apply lookup_insert_eq|]. by transitivity h2. }
  { apply lookup_singleton_eq. }
  cbn [Obj.heap Obj.out Obj.globals] in Hl1, Hl2, Hll, Hlp, Eg.
  set (h4 := <[l1 := Obj.ODict (Obj.VStr <$> source_guidelines)]> h3) in *.
  set (h5 := <[l2 := Obj.ODict (Obj.VStr <$> source_wiki)]> h4) in *.
  set (h6 := <[ll := Obj.OList [Obj.VRef l1; Obj.VRef l2]]> h5) in *.
  set (h7 := <[lp := Obj.ODict {[ "text" := Obj.VStr grounded_text;
                                  "sources" := Obj.VRef ll ]}]> h6) in *.
  (* the default list and the result *)
  set (out' := call_trace "gemini-2.5-flash" user_query
                 (MockConfig_init chat_system_prompt None) (Obj.out w)) in *.
  destruct (obj_alloc_run (Obj.OList [])
              (Obj.World out' h7 (Obj.globals w))) as (ld & Hld & Ed).
  cbn [Obj.heap Obj.out Obj.globals] in Hld, Ed.
  set (h8 := <[ld := Obj.OList []]> h7) in *.
  destruct (obj_alloc_run
              (Obj.ODict {[ "text" := Obj.VStr grounded_text;
                            "sources" := Obj.VRef ll ]})
              (Obj.World out' h8 (Obj.globals w))) as (lr & Hlr & Er).
  cbn [Obj.heap Obj.out Obj.globals] in Hlr, Er.
  set (h9 := <[lr := Obj.ODict {[ "text" := Obj.VStr grounded_text;
                                  "sources" := Obj.VRef ll ]}]> h8) in *.
  assert (S4 : h3 ⊆ h4) by by apply insert_subseteq.
  assert (S5 : h4 ⊆ h5) by by apply insert_subseteq.
  assert (S6 : h5 ⊆ h6) by by apply insert_subseteq.
  assert (S7 : h6 ⊆ h7) by by apply insert_subseteq.
  assert (S8 : h7 ⊆ h8) by by apply insert_subseteq.
  assert (S9 : h8 ⊆ h9) by by apply insert_subseteq.
  assert (S69 : h6 ⊆ h9) by (by do 2 (etransitivity; [eassumption|])).
  assert (S59 : h5 ⊆ h9) by (by etransitivity).
  assert (S49 : h4 ⊆ h9) by (by etransitivity).
  assert (S09 : Obj.heap w ⊆ h9).
  { transitivity h3; [done|]. transitivity h4; [done|]. done. }
  assert (Gr : h9 !! lr = Some (Obj.ODict {[ "text" := Obj.VStr grounded_text;
                                             "sources" := Obj.VRef ll ]}))
    by apply lookup_insert_eq.
  assert (Gl : h9 !! ll = Some (Obj.OList [Obj.VRef l1; Obj.VRef l2])).
  { apply (lookup_weaken h6 h9); [apply lookup_insert_eq | done]. }
  assert (G1 : h9 !! l1 = Some (Obj.ODict (Obj.VStr <$> source_guidelines))).
  { apply (lookup_weaken h4 h9); [apply lookup_insert_eq | done]. }
  assert (G2 : h9 !! l2 = Some (Obj.ODict (Obj.VStr <$> source_wiki))).
  { apply (lookup_weaken h5 h9); [apply lookup_insert_eq | done]. }
  exists (Obj.VRef lr), (Obj.World out' h9 (Obj.globals w)).
  cbn [Obj.heap Obj.out Obj.globals]. split_and!.
  - unfold Obj.generate_chat_response. obj_unfold. rewrite Et. cbv beta iota.
    rewrite Es. cbv beta iota. rewrite Ec. cbv beta iota.
    rewrite Ecall, Eg. cbv beta iota.
    unfold Obj.subscript_key. cbn [Obj.heap].
    replace (h7 !! lp) with
      (Some (Obj.ODict {[ "text" := Obj.VStr grounded_text;
                          "sources" := Obj.VRef ll ]}))
      by (symmetry; apply lookup_insert_eq).
    cbv beta iota. rewrite lookup_insert_eq. cbv beta iota.
    unfold Obj.get_or_new_list. obj_unfold. unfold Obj.lookup_get.
    replace (h7 !! lp) with
      (Some (Obj.ODict {[ "text" := Obj.VStr grounded_text;
                          "sources" := Obj.VRef ll ]}))
      by (symmetry; apply lookup_insert_eq).
    cbv beta iota. rewrite Ed. cbv beta iota.
    rewrite lookup_insert_ne by done. rewrite lookup_singleton_eq.
    cbn [default from_option]. exact Er.
  - by rewrite generate_chat_response_run.
  - by split.
  - exists lr, {[ "text" := Obj.VStr grounded_text; "sources" := Obj.VRef ll ]}.
    split_and!; [done | done |]. intros k. rewrite grounded_payload_lookup.
    repeat case_decide; subst.
    + rewrite lookup_insert_eq. by constructor.
    + rewrite lookup_insert_ne, lookup_singleton_eq by done. constructor.
      exists ll, [Obj.VRef l1; Obj.VRef l2]. split_and!; [done | done |].
      repeat constructor; eexists; eauto.
    + rewrite lookup_insert_ne, lookup_singleton_ne by done. constructor.
  - unfold made_of. rewrite Gr, lookup_insert_ne, lookup_singleton_eq, Gl by done.
    cbn [omap list_omap].
    assert (S04 : Obj.heap w ⊆ h4) by by transitivity h3.
    assert (S05 : Obj.heap w ⊆ h5) by by transitivity h4.
    assert (S08 : Obj.heap w ⊆ h8).
    { transitivity h5; [done|]. transitivity h6; [done|]. by transitivity h7. }
    repeat constructor.
    + exact (lookup_weaken_None _ _ _ Hlr S08).
    + exact (lookup_weaken_None _ _ _ Hll S05).
    + exact (lookup_weaken_None _ _ _ Hl1 S03).
    + exact (lookup_weaken_None _ _ _ Hl2 S04).
Qed.

(** The store can tell a change: assigning an attribute of an instance that
    exists, to a value it did not have, is not [unchanged]. *)
Lemma setattr_is_a_change (w : Obj.world) l c attrs a x :
  Obj.heap w !! l = Some (Obj.OInst c attrs) →
  attrs !! a ≠ Some x →
  ¬ unchanged w (Obj.setattr (Obj.VRef l) a x w).2.
Proof.
  intros Hl Ha [_ Hsub]. unfold Obj.setattr in Hsub. rewrite Hl in Hsub.
  cbn [snd Obj.heap] in Hsub.
  pose proof (lookup_weaken _ _ _ _ Hl Hsub) as H.
  rewrite lookup_insert_eq in H. injection H as H.
  apply Ha. rewrite <- H. apply lookup_insert_eq.
Qed.

Lemma made_of_head h l : ∃ rest, made_of h (Obj.VRef l) = l :: rest.
Proof. unfold made_of. repeat case_match; eauto. Qed.

(** Loading the module leaves it ready, whatever the state before. *)
Lemma load_module_ready environ w :
  (Obj.load_module environ w).1 = Obj.Ok tt ∧
  client_ready (Obj.load_module environ w).2.
Proof.
  split; [reflexivity|].
  exists (fresh (dom (Obj.heap w))), ∅.
  unfold Obj.load_module, Obj.MockClient, Obj.store_global, Obj.alloc.
  obj_unfold. split_and!.
  - apply lookup_insert_eq.
  - apply lookup_insert_eq.
  - apply lookup_empty.
Qed.

(** C8: both services are deterministic and keep no hidden state.  In any
    state where the module variable names the client, two calls of a service
    with the same argument, one after the other, both return, and the two
    results are equal: the two responses read as the same dictionary, the two
    scenarios are the same string.  A call changes no module variable and no
    object that existed before it (the client included); the response it
    returns is made of new objects only, so the two responses share nothing
    and the first still reads the same after the second call.  The value
    returned is the same in every such state, whatever a caller did to the
    store in between, and it is the value of the embedding over values. *)
Theorem services_deterministic (user_query department : string) (w : Obj.world) :
  client_ready w →
  (∃ r1 w1 r2 w2 p,
     Obj.generate_chat_response user_query w = (Obj.Ok r1, w1) ∧
     Obj.generate_chat_response user_query w1 = (Obj.Ok r2, w2) ∧
     payload_at (Obj.heap w1) r1 p ∧
     payload_at (Obj.heap w2) r2 p ∧
     payload_at (Obj.heap w2) r1 p ∧
     r1 ≠ r2 ∧
     unchanged w w1 ∧ unchanged w1 w2 ∧
     Forall (λ l, Obj.heap w !! l = None) (made_of (Obj.heap w1) r1) ∧
     Forall (λ l, Obj.heap w1 !! l = None) (made_of (Obj.heap w2) r2) ∧
     (generate_chat_response user_query (Obj.out w)).1 = Py.Ok p ∧
     ∀ w', client_ready w' →
       ∃ r' w'', Obj.generate_chat_response user_query w' = (Obj.Ok r', w'') ∧
                 payload_at (Obj.heap w'') r' p) ∧
  (∃ t w1 w2,
     Obj.generate_rp_scenario department w = (Obj.Ok (Obj.VStr t), w1) ∧
     Obj.generate_rp_scenario department w1 = (Obj.Ok (Obj.VStr t), w2) ∧
     unchanged w w1 ∧ unchanged w1 w2 ∧
     (generate_rp_scenario department (Obj.out w)).1 = Py.Ok (PyStr t) ∧
     ∀ w', client_ready w' →
       ∃ w'', Obj.generate_rp_scenario department w' = (Obj.Ok (Obj.VStr t), w'')).
Proof.
  intros Hready. split.
  - destruct (obj_generate_chat_response_spec user_query w Hready)
      as (r1 & w1 & E1 & _ & U1 & P1 & F1).
    pose proof (client_ready_unchanged _ _ U1 Hready) as Hready1.
    destruct (obj_generate_chat_response_spec user_query w1 Hready1)
      as (r2 & w2 & E2 & _ & U2 & P2 & F2).
    exists r1, w1, r2, w2, grounded_payload.
    split_and!.
    + exact E1.
    + exact E2.
    + exact P1.
    + exact P2.
    + eapply payload_at_mono; [apply U2 | exact P1].
    + destruct P1 as (l1 & d1 & -> & Hl1 & _).
      destruct P2 as (l2 & d2 & -> & Hl2 & _).
      intros [= ->]. destruct (made_of_head (Obj.heap w2) l2) as [rest Hm].
      rewrite Hm in F2. apply Forall_cons in F2 as [F2 _]. congruence.
    + exact U1.
    + exact U2.
    + exact F1.
    + exact F2.
    + by rewrite generate_chat_response_run.
    + intros w' Hready'.
      destruct (obj_generate_chat_response_spec user_query w' Hready')
        as (r' & w'' & E' & _ & _ & P' & _).
      by exists r', w''.
  - destruct (obj_generate_rp_scenario_spec department w Hready)
      as (w1 & E1 & _ & U1).
    pose proof (client_ready_unchanged _ _ U1 Hready) as Hready1.
    destruct (obj_generate_rp_scenario_spec department w1 Hready1)
      as (w2 & E2 & _ & U2).
    exists creative_text, w1, w2. split_and!.
    + exact E1.
    + exact E2.
    + exact U1.
    + exact U2.
    + by rewrite generate_rp_scenario_run.
    + intros w' Hready'.
      destruct (obj_generate_rp_scenario_spec department w' Hready')
        as (w'' & E' & _). by exists w''.
Qed.

Lemma services_deterministic_witness :
  let w := (Obj.load_module ∅ (Obj.World EmptyString ∅ ∅)).2 in
  client_ready w ∧
  (∃ r1 w1 r2 w2,
     Obj.generate_chat_response "Which departments exist?" w = (Obj.Ok r1, w1) ∧
     Obj.generate_chat_response "Which departments exist?" w1 = (Obj.Ok r2, w2) ∧
     r1 ≠ r2 ∧
     payload_at (Obj.heap w2) r1 grounded_payload ∧
     payload_at (Obj.heap w2) r2 grounded_payload) ∧
  (∃ w1 w2,
     Obj.generate_rp_scenario "FHP" w = (Obj.Ok (Obj.VStr creative_text), w1) ∧
     Obj.generate_rp_scenario "FHP" w1 = (Obj.Ok (Obj.VStr creative_text), w2)).
Proof.
  intros w.
  assert (Hready : client_ready w).
  { exists 1%positive, ∅. split_and!; reflexivity. }
  split; [exact Hready|].
  destruct (services_deterministic "Which departments exist?" "FHP" w Hready)
    as [(r1 & w1 & r2 & w2 & p & E1 & E2 & _ & P2 & P1 & Hne & _ & _ & _ & _ & Hp & _)
        (t & v1 & v2 & S1 & S2 & _ & _ & Ht & _)].
  rewrite generate_chat_response_run in Hp. simpl in Hp.
  assert (p = grounded_payload) as -> by congruence.
  rewrite generate_rp_scenario_run in Ht. simpl in Ht.
  assert (t = creative_text) as -> by congruence.
  split.
  - exists r1, w1, r2, w2.
    split; [exact E1|]. split; [exact E2|]. split; [exact Hne|].
    split; [exact P1 | exact P2].
  - exists v1, v2. split; [exact S1 | exact S2].
Defined.
